(** * A shallow embedding of [basic_bot.py]

    The signed-request pipeline ([BasicBot._sign],
    [BasicBot._timestamped_params], [BasicBot.request]), the order builder
    ([BasicBot.place_order] and its two wrappers) and the TWAP scheduler
    ([BasicBot.place_twap_order]) of the Binance futures bot, together with
    the part of the Python runtime they rely on: [str.upper] over Unicode,
    [dict] insertion order, [str]/[repr] of the values that travel through
    the parameter set, [urllib.parse.urlencode], [hmac], [hashlib.sha256],
    binary64 division and [time.sleep].

    Conventions.
    - A Python [str] is the string of its UTF-8 bytes; [int] is [Z]; [float]
      is a binary64 ([PrimFloat.float]); a [dict] is the list of its items
      in insertion order.
    - The methods of the bot are computations in the monad [M]: they read a
      [world] (what each HTTP call meets, what the local clock shows,
      whether a sleep is carried out), extend a [trace] of events (the calls
      made on [self.session], the sleeps) and return a value or raise an
      exception.  "No network call" is a statement about the trace.
    - Logging is not modelled; its arguments are formatted lazily and it
      raises nothing. *)

From Stdlib Require Import ZArith Zpower List String Ascii Bool Lia.
From Stdlib Require Import Floats DecimalString Permutation.
From Stdlib Require Import QArith Qabs Qpower.
Import ListNotations.
Close Scope Q_scope.
Local Open Scope Z_scope.
Set Warnings "-register-all,-inexact-float".

(** ** hashlib.sha256 and hmac (FIPS 180-4, RFC 2104) *)

Module SHA256.

Definition w32 (x : Z) : Z := x mod 2 ^ 32.
Definition add32 (x y : Z) : Z := w32 (x + y).
Definition rotr (n x : Z) : Z :=
  Z.lor (Z.shiftr x n) (w32 (Z.shiftl x (32 - n))).
Definition not32 (x : Z) : Z := Z.lxor x (2 ^ 32 - 1).

Definition Ch (x y z : Z) := Z.lxor (Z.land x y) (Z.land (not32 x) z).
Definition Maj (x y z : Z) :=
  Z.lxor (Z.lxor (Z.land x y) (Z.land x z)) (Z.land y z).
Definition bsig0 x := Z.lxor (Z.lxor (rotr 2 x) (rotr 13 x)) (rotr 22 x).
Definition bsig1 x := Z.lxor (Z.lxor (rotr 6 x) (rotr 11 x)) (rotr 25 x).
Definition ssig0 x := Z.lxor (Z.lxor (rotr 7 x) (rotr 18 x)) (Z.shiftr x 3).
Definition ssig1 x := Z.lxor (Z.lxor (rotr 17 x) (rotr 19 x)) (Z.shiftr x 10).

(** The round constants are the first 32 bits of the fractional parts of
    the cube roots of the first 64 primes, the initial hash value those of
    the square roots of the first 8 (FIPS 180-4, sections 4.2.2 and 5.3.3);
    they are computed here rather than tabulated. *)
Definition is_prime (n : Z) : bool :=
  (1 <? n) &&
  forallb (fun d => negb (n mod d =? 0) || (n <? d * d))
          (map Z.of_nat (seq 2 (Z.to_nat n - 2))).

Definition first_primes (count : nat) : list Z :=
  firstn count (filter is_prime (map Z.of_nat (seq 2 320))).

(** The integer cube root, by bisection on [lo <= root < hi]. *)
Fixpoint cube_root_between (fuel : nat) (lo hi n : Z) : Z :=
  match fuel with
  | O => lo
  | S f =>
      if hi - lo <=? 1 then lo
      else
        let mid := (lo + hi) / 2 in
        if mid * mid * mid <=? n then cube_root_between f mid hi n
        else cube_root_between f lo mid n
  end.

Definition cube_root (n : Z) : Z := cube_root_between 200 0 (2 ^ 40) n.

Definition K : list Z :=
  Eval vm_compute in
    map (fun p => w32 (cube_root (p * 2 ^ 96))) (first_primes 64).

Definition H0 : list Z :=
  Eval vm_compute in
    map (fun p => w32 (Z.sqrt (p * 2 ^ 64))) (first_primes 8).

(** The message, one byte per list element, followed by the bit 1, zeros up
    to 56 modulo 64 and the bit length on eight bytes, big-endian. *)
Fixpoint be_bytes (n : nat) (x : Z) : list Z :=
  match n with
  | O => []
  | S n' => be_bytes n' (x / 256) ++ [x mod 256]
  end.

Definition pad (msg : list Z) : list Z :=
  let len := Z.of_nat (List.length msg) in
  let zeros := Z.to_nat ((55 - len) mod 64) in
  msg ++ [0x80] ++ repeat 0 zeros ++ be_bytes 8 (8 * len).

Fixpoint be_words (fuel : nat) (bs : list Z) : list Z :=
  match fuel, bs with
  | S f, a :: b :: c :: d :: rest =>
      (((a * 256 + b) * 256 + c) * 256 + d) :: be_words f rest
  | _, _ => []
  end.

(** [rev_sched] holds W(t-1) first: W(t) is computed from the entries at
    distance 2, 7, 15 and 16. *)
Fixpoint extend (n : nat) (rev_sched : list Z) : list Z :=
  match n with
  | O => rev_sched
  | S n' =>
      let wt := add32 (add32 (ssig1 (nth 1 rev_sched 0)) (nth 6 rev_sched 0))
                      (add32 (ssig0 (nth 14 rev_sched 0)) (nth 15 rev_sched 0)) in
      extend n' (wt :: rev_sched)
  end.

Definition schedule (block : list Z) : list Z :=
  rev (extend 48 (rev (be_words 16 block))).

Definition round (st : list Z) (kw : Z * Z) : list Z :=
  match st with
  | [a; b; c; d; e; f; g; h] =>
      let t1 := add32 (add32 (add32 h (bsig1 e)) (add32 (Ch e f g) (fst kw))) (snd kw) in
      let t2 := add32 (bsig0 a) (Maj a b c) in
      [add32 t1 t2; a; b; c; add32 d t1; e; f; g]
  | _ => st
  end.

Definition compress (h : list Z) (block : list Z) : list Z :=
  let st := fold_left round (combine K (schedule block)) h in
  map (fun p => add32 (fst p) (snd p)) (combine h st).

Fixpoint blocks (fuel : nat) (bs : list Z) : list (list Z) :=
  match fuel, bs with
  | S f, _ :: _ => firstn 64 bs :: blocks f (skipn 64 bs)
  | _, _ => []
  end.

Definition digest (msg : list Z) : list Z :=
  let p := pad msg in
  flat_map (be_bytes 4) (fold_left compress (blocks (List.length p) p) H0).

(** hmac.new(key, msg, hashlib.sha256).digest() *)
Definition hmac (key msg : list Z) : list Z :=
  let k0 := if (64 <? Z.of_nat (List.length key)) then digest key else key in
  let k := k0 ++ repeat 0 (64 - List.length k0)%nat in
  let ipad := map (Z.lxor 0x36) k in
  let opad := map (Z.lxor 0x5c) k in
  digest (opad ++ digest (ipad ++ msg)).

End SHA256.

(** ** Strings as bytes *)

Definition bytes_of_string (s : string) : list Z :=
  map (fun c => Z.of_N (N_of_ascii c)) (list_ascii_of_string s).

Definition hex_digit (d : Z) : ascii :=
  if d <? 10 then ascii_of_N (Z.to_N (48 + d)) else ascii_of_N (Z.to_N (87 + d)).

Definition hex_upper_digit (d : Z) : ascii :=
  if d <? 10 then ascii_of_N (Z.to_N (48 + d)) else ascii_of_N (Z.to_N (55 + d)).

(** [bytes.hex()] / [hexdigest()]: two lowercase digits per byte. *)
Fixpoint hex_of_bytes (bs : list Z) : string :=
  match bs with
  | [] => EmptyString
  | b :: rest => String (hex_digit (b / 16)) (String (hex_digit (b mod 16)) (hex_of_bytes rest))
  end.

Definition hmac_sha256_hexdigest (key msg : string) : string :=
  hex_of_bytes (SHA256.hmac (bytes_of_string key) (bytes_of_string msg)).

(** ** The Python values the bot handles *)

Local Open Scope string_scope.
Local Open Scope Z_scope.

(** A Python object as far as the bot sees one: what [json] parsing
    produces, what callers put in a parameter [dict], and the dictionaries
    the bot returns.  A [dict] keeps its items in insertion order; its keys
    are strings here, as all keys of the program are. *)
Inductive pyval : Type :=
| VNone
| VBool (b : bool)
| VInt (z : Z)
| VFloat (f : float)
| VStr (s : string)
| VList (l : list pyval)
| VDict (d : list (string * pyval)).

Definition pydict := list (string * pyval).

(** [d.get(k)] and [d[k]]: the item stored under [k], if any. *)
Fixpoint dict_get (d : pydict) (k : string) : option pyval :=
  match d with
  | [] => None
  | (k', v) :: rest => if String.eqb k' k then Some v else dict_get rest k
  end.

(** [d[k] = v]: an existing key keeps its place, a new key goes last. *)
Fixpoint dict_set (d : pydict) (k : string) (v : pyval) : pydict :=
  match d with
  | [] => [(k, v)]
  | (k', v') :: rest =>
      if String.eqb k' k then (k', v) :: rest else (k', v') :: dict_set rest k v
  end.

(** IEEE comparison with zero, as [f == 0.0] and [f < 0] perform it. *)
Definition float_is_zero (f : float) : bool :=
  match PrimFloat.compare f PrimFloat.zero with FEq => true | _ => false end.
Definition float_is_neg (f : float) : bool :=
  match PrimFloat.compare f PrimFloat.zero with FLt => true | _ => false end.
Definition float_is_pos (f : float) : bool :=
  match PrimFloat.compare f PrimFloat.zero with FGt => true | _ => false end.

(** [bool(v)], the truth value the [and], [or], [if] of the source test. *)
Definition truthy (v : pyval) : bool :=
  match v with
  | VNone => false
  | VBool b => b
  | VInt z => negb (z =? 0)
  | VFloat f => negb (float_is_zero f)
  | VStr s => negb (String.eqb s EmptyString)
  | VList l => match l with [] => false | _ => true end
  | VDict d => match d with [] => false | _ => true end
  end.

(** *** Characters: UTF-8 and the Unicode tables

    A [str] is a sequence of code points, held as its UTF-8 bytes (a [str]
    with a lone surrogate has no UTF-8 form and is not represented).
    [utf8_decode] cuts the bytes into characters, each with its code point;
    a byte that begins no well-formed sequence stands for no character and
    is left alone by everything below.  The tables are those of the Unicode
    character database, version 14.0 (the one CPython 3.11 is built with). *)

Definition byte_of (c : ascii) : Z := Z.of_N (N_of_ascii c).
Definition char_of (b : Z) : ascii := ascii_of_N (Z.to_N b).

Definition continuation (c : ascii) : bool :=
  (128 <=? byte_of c) && (byte_of c <? 192).

Fixpoint utf8_decode (s : string) : list (option Z * string) :=
  match s with
  | EmptyString => []
  | String c0 s1 =>
      let b0 := byte_of c0 in
      let stray := (None, String c0 EmptyString) :: utf8_decode s1 in
      if b0 <? 128 then (Some b0, String c0 EmptyString) :: utf8_decode s1
      else
        match s1 with
        | EmptyString => stray
        | String c1 s2 =>
            let cp2 := (b0 - 192) * 64 + (byte_of c1 - 128) in
            if (192 <=? b0) && (b0 <? 224) && continuation c1 && (128 <=? cp2) then
              (Some cp2, String c0 (String c1 EmptyString)) :: utf8_decode s2
            else
              match s2 with
              | EmptyString => stray
              | String c2 s3 =>
                  let cp3 := (b0 - 224) * 4096 + (byte_of c1 - 128) * 64
                             + (byte_of c2 - 128) in
                  if (224 <=? b0) && (b0 <? 240) && continuation c1 && continuation c2
                     && (2048 <=? cp3) && negb ((55296 <=? cp3) && (cp3 <? 57344)) then
                    (Some cp3, String c0 (String c1 (String c2 EmptyString)))
                      :: utf8_decode s3
                  else
                    match s3 with
                    | EmptyString => stray
                    | String c3 s4 =>
                        let cp4 := (b0 - 240) * 262144 + (byte_of c1 - 128) * 4096
                                   + (byte_of c2 - 128) * 64 + (byte_of c3 - 128) in
                        if (240 <=? b0) && (b0 <? 248) && continuation c1
                           && continuation c2 && continuation c3
                           && (65536 <=? cp4) && (cp4 <? 1114112) then
                          (Some cp4,
                           String c0 (String c1 (String c2 (String c3 EmptyString))))
                            :: utf8_decode s4
                        else stray
                    end
              end
        end
  end.

Definition utf8_encode (cp : Z) : string :=
  if cp <? 128 then String (char_of cp) EmptyString
  else if cp <? 2048 then
    String (char_of (192 + cp / 64)) (String (char_of (128 + cp mod 64)) EmptyString)
  else if cp <? 65536 then
    String (char_of (224 + cp / 4096))
      (String (char_of (128 + (cp / 64) mod 64))
         (String (char_of (128 + cp mod 64)) EmptyString))
  else
    String (char_of (240 + cp / 262144))
      (String (char_of (128 + (cp / 4096) mod 64))
         (String (char_of (128 + (cp / 64) mod 64))
            (String (char_of (128 + cp mod 64)) EmptyString))).

Module Unicode.

(** The upper-case mapping of the characters that map to one character:
    [(first, last, step, offset)] maps [first], [first + step], ..., [last]
    to themselves plus [offset]. *)
Definition upper_runs : list (Z * Z * Z * Z) :=
  [
   (0x61, 0x7A, 1, (-32)); (0xB5, 0xB5, 1, 743); (0xE0, 0xF6, 1, (-32));
   (0xF8, 0xFE, 1, (-32)); (0xFF, 0xFF, 1, 121); (0x101, 0x12F, 2, (-1));
   (0x131, 0x131, 1, (-232)); (0x133, 0x137, 2, (-1)); (0x13A, 0x148, 2, (-1));
   (0x14B, 0x177, 2, (-1)); (0x17A, 0x17E, 2, (-1)); (0x17F, 0x17F, 1, (-300));
   (0x180, 0x180, 1, 195); (0x183, 0x185, 2, (-1)); (0x188, 0x188, 1, (-1));
   (0x18C, 0x18C, 1, (-1)); (0x192, 0x192, 1, (-1)); (0x195, 0x195, 1, 97);
   (0x199, 0x199, 1, (-1)); (0x19A, 0x19A, 1, 163); (0x19E, 0x19E, 1, 130);
   (0x1A1, 0x1A5, 2, (-1)); (0x1A8, 0x1A8, 1, (-1)); (0x1AD, 0x1AD, 1, (-1));
   (0x1B0, 0x1B0, 1, (-1)); (0x1B4, 0x1B6, 2, (-1)); (0x1B9, 0x1B9, 1, (-1));
   (0x1BD, 0x1BD, 1, (-1)); (0x1BF, 0x1BF, 1, 56); (0x1C5, 0x1C5, 1, (-1));
   (0x1C6, 0x1C6, 1, (-2)); (0x1C8, 0x1C8, 1, (-1)); (0x1C9, 0x1C9, 1, (-2));
   (0x1CB, 0x1CB, 1, (-1)); (0x1CC, 0x1CC, 1, (-2)); (0x1CE, 0x1DC, 2, (-1));
   (0x1DD, 0x1DD, 1, (-79)); (0x1DF, 0x1EF, 2, (-1)); (0x1F2, 0x1F2, 1, (-1));
   (0x1F3, 0x1F3, 1, (-2)); (0x1F5, 0x1F5, 1, (-1)); (0x1F9, 0x21F, 2, (-1));
   (0x223, 0x233, 2, (-1)); (0x23C, 0x23C, 1, (-1)); (0x23F, 0x240, 1, 10815);
   (0x242, 0x242, 1, (-1)); (0x247, 0x24F, 2, (-1)); (0x250, 0x250, 1, 10783);
   (0x251, 0x251, 1, 10780); (0x252, 0x252, 1, 10782); (0x253, 0x253, 1, (-210));
   (0x254, 0x254, 1, (-206)); (0x256, 0x257, 1, (-205)); (0x259, 0x259, 1, (-202));
   (0x25B, 0x25B, 1, (-203)); (0x25C, 0x25C, 1, 42319); (0x260, 0x260, 1, (-205));
   (0x261, 0x261, 1, 42315); (0x263, 0x263, 1, (-207)); (0x265, 0x265, 1, 42280);
   (0x266, 0x266, 1, 42308); (0x268, 0x268, 1, (-209)); (0x269, 0x269, 1, (-211));
   (0x26A, 0x26A, 1, 42308); (0x26B, 0x26B, 1, 10743); (0x26C, 0x26C, 1, 42305);
   (0x26F, 0x26F, 1, (-211)); (0x271, 0x271, 1, 10749); (0x272, 0x272, 1, (-213));
   (0x275, 0x275, 1, (-214)); (0x27D, 0x27D, 1, 10727); (0x280, 0x280, 1, (-218));
   (0x282, 0x282, 1, 42307); (0x283, 0x283, 1, (-218)); (0x287, 0x287, 1, 42282);
   (0x288, 0x288, 1, (-218)); (0x289, 0x289, 1, (-69)); (0x28A, 0x28B, 1, (-217));
   (0x28C, 0x28C, 1, (-71)); (0x292, 0x292, 1, (-219)); (0x29D, 0x29D, 1, 42261);
   (0x29E, 0x29E, 1, 42258); (0x345, 0x345, 1, 84); (0x371, 0x373, 2, (-1));
   (0x377, 0x377, 1, (-1)); (0x37B, 0x37D, 1, 130); (0x3AC, 0x3AC, 1, (-38));
   (0x3AD, 0x3AF, 1, (-37)); (0x3B1, 0x3C1, 1, (-32)); (0x3C2, 0x3C2, 1, (-31));
   (0x3C3, 0x3CB, 1, (-32)); (0x3CC, 0x3CC, 1, (-64)); (0x3CD, 0x3CE, 1, (-63));
   (0x3D0, 0x3D0, 1, (-62)); (0x3D1, 0x3D1, 1, (-57)); (0x3D5, 0x3D5, 1, (-47));
   (0x3D6, 0x3D6, 1, (-54)); (0x3D7, 0x3D7, 1, (-8)); (0x3D9, 0x3EF, 2, (-1));
   (0x3F0, 0x3F0, 1, (-86)); (0x3F1, 0x3F1, 1, (-80)); (0x3F2, 0x3F2, 1, 7);
   (0x3F3, 0x3F3, 1, (-116)); (0x3F5, 0x3F5, 1, (-96)); (0x3F8, 0x3F8, 1, (-1));
   (0x3FB, 0x3FB, 1, (-1)); (0x430, 0x44F, 1, (-32)); (0x450, 0x45F, 1, (-80));
   (0x461, 0x481, 2, (-1)); (0x48B, 0x4BF, 2, (-1)); (0x4C2, 0x4CE, 2, (-1));
   (0x4CF, 0x4CF, 1, (-15)); (0x4D1, 0x52F, 2, (-1)); (0x561, 0x586, 1, (-48));
   (0x10D0, 0x10FA, 1, 3008); (0x10FD, 0x10FF, 1, 3008); (0x13F8, 0x13FD, 1, (-8));
   (0x1C80, 0x1C80, 1, (-6254)); (0x1C81, 0x1C81, 1, (-6253)); (0x1C82, 0x1C82, 1, (-6244));
   (0x1C83, 0x1C84, 1, (-6242)); (0x1C85, 0x1C85, 1, (-6243)); (0x1C86, 0x1C86, 1, (-6236));
   (0x1C87, 0x1C87, 1, (-6181)); (0x1C88, 0x1C88, 1, 35266); (0x1D79, 0x1D79, 1, 35332);
   (0x1D7D, 0x1D7D, 1, 3814); (0x1D8E, 0x1D8E, 1, 35384); (0x1E01, 0x1E95, 2, (-1));
   (0x1E9B, 0x1E9B, 1, (-59)); (0x1EA1, 0x1EFF, 2, (-1)); (0x1F00, 0x1F07, 1, 8);
   (0x1F10, 0x1F15, 1, 8); (0x1F20, 0x1F27, 1, 8); (0x1F30, 0x1F37, 1, 8);
   (0x1F40, 0x1F45, 1, 8); (0x1F51, 0x1F57, 2, 8); (0x1F60, 0x1F67, 1, 8);
   (0x1F70, 0x1F71, 1, 74); (0x1F72, 0x1F75, 1, 86); (0x1F76, 0x1F77, 1, 100);
   (0x1F78, 0x1F79, 1, 128); (0x1F7A, 0x1F7B, 1, 112); (0x1F7C, 0x1F7D, 1, 126);
   (0x1FB0, 0x1FB1, 1, 8); (0x1FBE, 0x1FBE, 1, (-7205)); (0x1FD0, 0x1FD1, 1, 8);
   (0x1FE0, 0x1FE1, 1, 8); (0x1FE5, 0x1FE5, 1, 7); (0x214E, 0x214E, 1, (-28));
   (0x2170, 0x217F, 1, (-16)); (0x2184, 0x2184, 1, (-1)); (0x24D0, 0x24E9, 1, (-26));
   (0x2C30, 0x2C5F, 1, (-48)); (0x2C61, 0x2C61, 1, (-1)); (0x2C65, 0x2C65, 1, (-10795));
   (0x2C66, 0x2C66, 1, (-10792)); (0x2C68, 0x2C6C, 2, (-1)); (0x2C73, 0x2C73, 1, (-1));
   (0x2C76, 0x2C76, 1, (-1)); (0x2C81, 0x2CE3, 2, (-1)); (0x2CEC, 0x2CEE, 2, (-1));
   (0x2CF3, 0x2CF3, 1, (-1)); (0x2D00, 0x2D25, 1, (-7264)); (0x2D27, 0x2D27, 1, (-7264));
   (0x2D2D, 0x2D2D, 1, (-7264)); (0xA641, 0xA66D, 2, (-1)); (0xA681, 0xA69B, 2, (-1));
   (0xA723, 0xA72F, 2, (-1)); (0xA733, 0xA76F, 2, (-1)); (0xA77A, 0xA77C, 2, (-1));
   (0xA77F, 0xA787, 2, (-1)); (0xA78C, 0xA78C, 1, (-1)); (0xA791, 0xA793, 2, (-1));
   (0xA794, 0xA794, 1, 48); (0xA797, 0xA7A9, 2, (-1)); (0xA7B5, 0xA7C3, 2, (-1));
   (0xA7C8, 0xA7CA, 2, (-1)); (0xA7D1, 0xA7D1, 1, (-1)); (0xA7D7, 0xA7D9, 2, (-1));
   (0xA7F6, 0xA7F6, 1, (-1)); (0xAB53, 0xAB53, 1, (-928)); (0xAB70, 0xABBF, 1, (-38864));
   (0xFF41, 0xFF5A, 1, (-32)); (0x10428, 0x1044F, 1, (-40)); (0x104D8, 0x104FB, 1, (-40));
   (0x10597, 0x105A1, 1, (-39)); (0x105A3, 0x105B1, 1, (-39)); (0x105B3, 0x105B9, 1, (-39));
   (0x105BB, 0x105BC, 1, (-39)); (0x10CC0, 0x10CF2, 1, (-64)); (0x118C0, 0x118DF, 1, (-32));
   (0x16E60, 0x16E7F, 1, (-32)); (0x1E922, 0x1E943, 1, (-34))
  ].

(** The characters whose upper case is several characters
    ([SpecialCasing.txt]). *)
Definition upper_special : list (Z * list Z) :=
  [
   (0xDF, [0x53; 0x53]); (0x149, [0x2BC; 0x4E]); (0x1F0, [0x4A; 0x30C]);
   (0x390, [0x399; 0x308; 0x301]); (0x3B0, [0x3A5; 0x308; 0x301]); (0x587, [0x535; 0x552]);
   (0x1E96, [0x48; 0x331]); (0x1E97, [0x54; 0x308]); (0x1E98, [0x57; 0x30A]);
   (0x1E99, [0x59; 0x30A]); (0x1E9A, [0x41; 0x2BE]); (0x1F50, [0x3A5; 0x313]);
   (0x1F52, [0x3A5; 0x313; 0x300]); (0x1F54, [0x3A5; 0x313; 0x301]);
   (0x1F56, [0x3A5; 0x313; 0x342]); (0x1F80, [0x1F08; 0x399]); (0x1F81, [0x1F09; 0x399]);
   (0x1F82, [0x1F0A; 0x399]); (0x1F83, [0x1F0B; 0x399]); (0x1F84, [0x1F0C; 0x399]);
   (0x1F85, [0x1F0D; 0x399]); (0x1F86, [0x1F0E; 0x399]); (0x1F87, [0x1F0F; 0x399]);
   (0x1F88, [0x1F08; 0x399]); (0x1F89, [0x1F09; 0x399]); (0x1F8A, [0x1F0A; 0x399]);
   (0x1F8B, [0x1F0B; 0x399]); (0x1F8C, [0x1F0C; 0x399]); (0x1F8D, [0x1F0D; 0x399]);
   (0x1F8E, [0x1F0E; 0x399]); (0x1F8F, [0x1F0F; 0x399]); (0x1F90, [0x1F28; 0x399]);
   (0x1F91, [0x1F29; 0x399]); (0x1F92, [0x1F2A; 0x399]); (0x1F93, [0x1F2B; 0x399]);
   (0x1F94, [0x1F2C; 0x399]); (0x1F95, [0x1F2D; 0x399]); (0x1F96, [0x1F2E; 0x399]);
   (0x1F97, [0x1F2F; 0x399]); (0x1F98, [0x1F28; 0x399]); (0x1F99, [0x1F29; 0x399]);
   (0x1F9A, [0x1F2A; 0x399]); (0x1F9B, [0x1F2B; 0x399]); (0x1F9C, [0x1F2C; 0x399]);
   (0x1F9D, [0x1F2D; 0x399]); (0x1F9E, [0x1F2E; 0x399]); (0x1F9F, [0x1F2F; 0x399]);
   (0x1FA0, [0x1F68; 0x399]); (0x1FA1, [0x1F69; 0x399]); (0x1FA2, [0x1F6A; 0x399]);
   (0x1FA3, [0x1F6B; 0x399]); (0x1FA4, [0x1F6C; 0x399]); (0x1FA5, [0x1F6D; 0x399]);
   (0x1FA6, [0x1F6E; 0x399]); (0x1FA7, [0x1F6F; 0x399]); (0x1FA8, [0x1F68; 0x399]);
   (0x1FA9, [0x1F69; 0x399]); (0x1FAA, [0x1F6A; 0x399]); (0x1FAB, [0x1F6B; 0x399]);
   (0x1FAC, [0x1F6C; 0x399]); (0x1FAD, [0x1F6D; 0x399]); (0x1FAE, [0x1F6E; 0x399]);
   (0x1FAF, [0x1F6F; 0x399]); (0x1FB2, [0x1FBA; 0x399]); (0x1FB3, [0x391; 0x399]);
   (0x1FB4, [0x386; 0x399]); (0x1FB6, [0x391; 0x342]); (0x1FB7, [0x391; 0x342; 0x399]);
   (0x1FBC, [0x391; 0x399]); (0x1FC2, [0x1FCA; 0x399]); (0x1FC3, [0x397; 0x399]);
   (0x1FC4, [0x389; 0x399]); (0x1FC6, [0x397; 0x342]); (0x1FC7, [0x397; 0x342; 0x399]);
   (0x1FCC, [0x397; 0x399]); (0x1FD2, [0x399; 0x308; 0x300]);
   (0x1FD3, [0x399; 0x308; 0x301]); (0x1FD6, [0x399; 0x342]);
   (0x1FD7, [0x399; 0x308; 0x342]); (0x1FE2, [0x3A5; 0x308; 0x300]);
   (0x1FE3, [0x3A5; 0x308; 0x301]); (0x1FE4, [0x3A1; 0x313]); (0x1FE6, [0x3A5; 0x342]);
   (0x1FE7, [0x3A5; 0x308; 0x342]); (0x1FF2, [0x1FFA; 0x399]); (0x1FF3, [0x3A9; 0x399]);
   (0x1FF4, [0x38F; 0x399]); (0x1FF6, [0x3A9; 0x342]); (0x1FF7, [0x3A9; 0x342; 0x399]);
   (0x1FFC, [0x3A9; 0x399]); (0xFB00, [0x46; 0x46]); (0xFB01, [0x46; 0x49]);
   (0xFB02, [0x46; 0x4C]); (0xFB03, [0x46; 0x46; 0x49]); (0xFB04, [0x46; 0x46; 0x4C]);
   (0xFB05, [0x53; 0x54]); (0xFB06, [0x53; 0x54]); (0xFB13, [0x544; 0x546]);
   (0xFB14, [0x544; 0x535]); (0xFB15, [0x544; 0x53B]); (0xFB16, [0x54E; 0x546]);
   (0xFB17, [0x544; 0x53D])
  ].

(** The ranges of the characters that [repr] escapes: the categories Cc, Cf,
    Cs, Co, Cn, Zl, Zp and Zs, the ASCII space left out
    ([str.isprintable] is false for them). *)
Definition unprintable : list (Z * Z) :=
  [
   (0x0, 0x1F); (0x7F, 0xA0); (0xAD, 0xAD); (0x378, 0x379); (0x380, 0x383); (0x38B, 0x38B);
   (0x38D, 0x38D); (0x3A2, 0x3A2); (0x530, 0x530); (0x557, 0x558); (0x58B, 0x58C);
   (0x590, 0x590); (0x5C8, 0x5CF); (0x5EB, 0x5EE); (0x5F5, 0x605); (0x61C, 0x61C);
   (0x6DD, 0x6DD); (0x70E, 0x70F); (0x74B, 0x74C); (0x7B2, 0x7BF); (0x7FB, 0x7FC);
   (0x82E, 0x82F); (0x83F, 0x83F); (0x85C, 0x85D); (0x85F, 0x85F); (0x86B, 0x86F);
   (0x88F, 0x897); (0x8E2, 0x8E2); (0x984, 0x984); (0x98D, 0x98E); (0x991, 0x992);
   (0x9A9, 0x9A9); (0x9B1, 0x9B1); (0x9B3, 0x9B5); (0x9BA, 0x9BB); (0x9C5, 0x9C6);
   (0x9C9, 0x9CA); (0x9CF, 0x9D6); (0x9D8, 0x9DB); (0x9DE, 0x9DE); (0x9E4, 0x9E5);
   (0x9FF, 0xA00); (0xA04, 0xA04); (0xA0B, 0xA0E); (0xA11, 0xA12); (0xA29, 0xA29);
   (0xA31, 0xA31); (0xA34, 0xA34); (0xA37, 0xA37); (0xA3A, 0xA3B); (0xA3D, 0xA3D);
   (0xA43, 0xA46); (0xA49, 0xA4A); (0xA4E, 0xA50); (0xA52, 0xA58); (0xA5D, 0xA5D);
   (0xA5F, 0xA65); (0xA77, 0xA80); (0xA84, 0xA84); (0xA8E, 0xA8E); (0xA92, 0xA92);
   (0xAA9, 0xAA9); (0xAB1, 0xAB1); (0xAB4, 0xAB4); (0xABA, 0xABB); (0xAC6, 0xAC6);
   (0xACA, 0xACA); (0xACE, 0xACF); (0xAD1, 0xADF); (0xAE4, 0xAE5); (0xAF2, 0xAF8);
   (0xB00, 0xB00); (0xB04, 0xB04); (0xB0D, 0xB0E); (0xB11, 0xB12); (0xB29, 0xB29);
   (0xB31, 0xB31); (0xB34, 0xB34); (0xB3A, 0xB3B); (0xB45, 0xB46); (0xB49, 0xB4A);
   (0xB4E, 0xB54); (0xB58, 0xB5B); (0xB5E, 0xB5E); (0xB64, 0xB65); (0xB78, 0xB81);
   (0xB84, 0xB84); (0xB8B, 0xB8D); (0xB91, 0xB91); (0xB96, 0xB98); (0xB9B, 0xB9B);
   (0xB9D, 0xB9D); (0xBA0, 0xBA2); (0xBA5, 0xBA7); (0xBAB, 0xBAD); (0xBBA, 0xBBD);
   (0xBC3, 0xBC5); (0xBC9, 0xBC9); (0xBCE, 0xBCF); (0xBD1, 0xBD6); (0xBD8, 0xBE5);
   (0xBFB, 0xBFF); (0xC0D, 0xC0D); (0xC11, 0xC11); (0xC29, 0xC29); (0xC3A, 0xC3B);
   (0xC45, 0xC45); (0xC49, 0xC49); (0xC4E, 0xC54); (0xC57, 0xC57); (0xC5B, 0xC5C);
   (0xC5E, 0xC5F); (0xC64, 0xC65); (0xC70, 0xC76); (0xC8D, 0xC8D); (0xC91, 0xC91);
   (0xCA9, 0xCA9); (0xCB4, 0xCB4); (0xCBA, 0xCBB); (0xCC5, 0xCC5); (0xCC9, 0xCC9);
   (0xCCE, 0xCD4); (0xCD7, 0xCDC); (0xCDF, 0xCDF); (0xCE4, 0xCE5); (0xCF0, 0xCF0);
   (0xCF3, 0xCFF); (0xD0D, 0xD0D); (0xD11, 0xD11); (0xD45, 0xD45); (0xD49, 0xD49);
   (0xD50, 0xD53); (0xD64, 0xD65); (0xD80, 0xD80); (0xD84, 0xD84); (0xD97, 0xD99);
   (0xDB2, 0xDB2); (0xDBC, 0xDBC); (0xDBE, 0xDBF); (0xDC7, 0xDC9); (0xDCB, 0xDCE);
   (0xDD5, 0xDD5); (0xDD7, 0xDD7); (0xDE0, 0xDE5); (0xDF0, 0xDF1); (0xDF5, 0xE00);
   (0xE3B, 0xE3E); (0xE5C, 0xE80); (0xE83, 0xE83); (0xE85, 0xE85); (0xE8B, 0xE8B);
   (0xEA4, 0xEA4); (0xEA6, 0xEA6); (0xEBE, 0xEBF); (0xEC5, 0xEC5); (0xEC7, 0xEC7);
   (0xECE, 0xECF); (0xEDA, 0xEDB); (0xEE0, 0xEFF); (0xF48, 0xF48); (0xF6D, 0xF70);
   (0xF98, 0xF98); (0xFBD, 0xFBD); (0xFCD, 0xFCD); (0xFDB, 0xFFF); (0x10C6, 0x10C6);
   (0x10C8, 0x10CC); (0x10CE, 0x10CF); (0x1249, 0x1249); (0x124E, 0x124F); (0x1257, 0x1257);
   (0x1259, 0x1259); (0x125E, 0x125F); (0x1289, 0x1289); (0x128E, 0x128F); (0x12B1, 0x12B1);
   (0x12B6, 0x12B7); (0x12BF, 0x12BF); (0x12C1, 0x12C1); (0x12C6, 0x12C7); (0x12D7, 0x12D7);
   (0x1311, 0x1311); (0x1316, 0x1317); (0x135B, 0x135C); (0x137D, 0x137F); (0x139A, 0x139F);
   (0x13F6, 0x13F7); (0x13FE, 0x13FF); (0x1680, 0x1680); (0x169D, 0x169F); (0x16F9, 0x16FF);
   (0x1716, 0x171E); (0x1737, 0x173F); (0x1754, 0x175F); (0x176D, 0x176D); (0x1771, 0x1771);
   (0x1774, 0x177F); (0x17DE, 0x17DF); (0x17EA, 0x17EF); (0x17FA, 0x17FF); (0x180E, 0x180E);
   (0x181A, 0x181F); (0x1879, 0x187F); (0x18AB, 0x18AF); (0x18F6, 0x18FF); (0x191F, 0x191F);
   (0x192C, 0x192F); (0x193C, 0x193F); (0x1941, 0x1943); (0x196E, 0x196F); (0x1975, 0x197F);
   (0x19AC, 0x19AF); (0x19CA, 0x19CF); (0x19DB, 0x19DD); (0x1A1C, 0x1A1D); (0x1A5F, 0x1A5F);
   (0x1A7D, 0x1A7E); (0x1A8A, 0x1A8F); (0x1A9A, 0x1A9F); (0x1AAE, 0x1AAF); (0x1ACF, 0x1AFF);
   (0x1B4D, 0x1B4F); (0x1B7F, 0x1B7F); (0x1BF4, 0x1BFB); (0x1C38, 0x1C3A); (0x1C4A, 0x1C4C);
   (0x1C89, 0x1C8F); (0x1CBB, 0x1CBC); (0x1CC8, 0x1CCF); (0x1CFB, 0x1CFF); (0x1F16, 0x1F17);
   (0x1F1E, 0x1F1F); (0x1F46, 0x1F47); (0x1F4E, 0x1F4F); (0x1F58, 0x1F58); (0x1F5A, 0x1F5A);
   (0x1F5C, 0x1F5C); (0x1F5E, 0x1F5E); (0x1F7E, 0x1F7F); (0x1FB5, 0x1FB5); (0x1FC5, 0x1FC5);
   (0x1FD4, 0x1FD5); (0x1FDC, 0x1FDC); (0x1FF0, 0x1FF1); (0x1FF5, 0x1FF5); (0x1FFF, 0x200F);
   (0x2028, 0x202F); (0x205F, 0x206F); (0x2072, 0x2073); (0x208F, 0x208F); (0x209D, 0x209F);
   (0x20C1, 0x20CF); (0x20F1, 0x20FF); (0x218C, 0x218F); (0x2427, 0x243F); (0x244B, 0x245F);
   (0x2B74, 0x2B75); (0x2B96, 0x2B96); (0x2CF4, 0x2CF8); (0x2D26, 0x2D26); (0x2D28, 0x2D2C);
   (0x2D2E, 0x2D2F); (0x2D68, 0x2D6E); (0x2D71, 0x2D7E); (0x2D97, 0x2D9F); (0x2DA7, 0x2DA7);
   (0x2DAF, 0x2DAF); (0x2DB7, 0x2DB7); (0x2DBF, 0x2DBF); (0x2DC7, 0x2DC7); (0x2DCF, 0x2DCF);
   (0x2DD7, 0x2DD7); (0x2DDF, 0x2DDF); (0x2E5E, 0x2E7F); (0x2E9A, 0x2E9A); (0x2EF4, 0x2EFF);
   (0x2FD6, 0x2FEF); (0x2FFC, 0x3000); (0x3040, 0x3040); (0x3097, 0x3098); (0x3100, 0x3104);
   (0x3130, 0x3130); (0x318F, 0x318F); (0x31E4, 0x31EF); (0x321F, 0x321F); (0xA48D, 0xA48F);
   (0xA4C7, 0xA4CF); (0xA62C, 0xA63F); (0xA6F8, 0xA6FF); (0xA7CB, 0xA7CF); (0xA7D2, 0xA7D2);
   (0xA7D4, 0xA7D4); (0xA7DA, 0xA7F1); (0xA82D, 0xA82F); (0xA83A, 0xA83F); (0xA878, 0xA87F);
   (0xA8C6, 0xA8CD); (0xA8DA, 0xA8DF); (0xA954, 0xA95E); (0xA97D, 0xA97F); (0xA9CE, 0xA9CE);
   (0xA9DA, 0xA9DD); (0xA9FF, 0xA9FF); (0xAA37, 0xAA3F); (0xAA4E, 0xAA4F); (0xAA5A, 0xAA5B);
   (0xAAC3, 0xAADA); (0xAAF7, 0xAB00); (0xAB07, 0xAB08); (0xAB0F, 0xAB10); (0xAB17, 0xAB1F);
   (0xAB27, 0xAB27); (0xAB2F, 0xAB2F); (0xAB6C, 0xAB6F); (0xABEE, 0xABEF); (0xABFA, 0xABFF);
   (0xD7A4, 0xD7AF); (0xD7C7, 0xD7CA); (0xD7FC, 0xF8FF); (0xFA6E, 0xFA6F); (0xFADA, 0xFAFF);
   (0xFB07, 0xFB12); (0xFB18, 0xFB1C); (0xFB37, 0xFB37); (0xFB3D, 0xFB3D); (0xFB3F, 0xFB3F);
   (0xFB42, 0xFB42); (0xFB45, 0xFB45); (0xFBC3, 0xFBD2); (0xFD90, 0xFD91); (0xFDC8, 0xFDCE);
   (0xFDD0, 0xFDEF); (0xFE1A, 0xFE1F); (0xFE53, 0xFE53); (0xFE67, 0xFE67); (0xFE6C, 0xFE6F);
   (0xFE75, 0xFE75); (0xFEFD, 0xFF00); (0xFFBF, 0xFFC1); (0xFFC8, 0xFFC9); (0xFFD0, 0xFFD1);
   (0xFFD8, 0xFFD9); (0xFFDD, 0xFFDF); (0xFFE7, 0xFFE7); (0xFFEF, 0xFFFB); (0xFFFE, 0xFFFF);
   (0x1000C, 0x1000C); (0x10027, 0x10027); (0x1003B, 0x1003B); (0x1003E, 0x1003E);
   (0x1004E, 0x1004F); (0x1005E, 0x1007F); (0x100FB, 0x100FF); (0x10103, 0x10106);
   (0x10134, 0x10136); (0x1018F, 0x1018F); (0x1019D, 0x1019F); (0x101A1, 0x101CF);
   (0x101FE, 0x1027F); (0x1029D, 0x1029F); (0x102D1, 0x102DF); (0x102FC, 0x102FF);
   (0x10324, 0x1032C); (0x1034B, 0x1034F); (0x1037B, 0x1037F); (0x1039E, 0x1039E);
   (0x103C4, 0x103C7); (0x103D6, 0x103FF); (0x1049E, 0x1049F); (0x104AA, 0x104AF);
   (0x104D4, 0x104D7); (0x104FC, 0x104FF); (0x10528, 0x1052F); (0x10564, 0x1056E);
   (0x1057B, 0x1057B); (0x1058B, 0x1058B); (0x10593, 0x10593); (0x10596, 0x10596);
   (0x105A2, 0x105A2); (0x105B2, 0x105B2); (0x105BA, 0x105BA); (0x105BD, 0x105FF);
   (0x10737, 0x1073F); (0x10756, 0x1075F); (0x10768, 0x1077F); (0x10786, 0x10786);
   (0x107B1, 0x107B1); (0x107BB, 0x107FF); (0x10806, 0x10807); (0x10809, 0x10809);
   (0x10836, 0x10836); (0x10839, 0x1083B); (0x1083D, 0x1083E); (0x10856, 0x10856);
   (0x1089F, 0x108A6); (0x108B0, 0x108DF); (0x108F3, 0x108F3); (0x108F6, 0x108FA);
   (0x1091C, 0x1091E); (0x1093A, 0x1093E); (0x10940, 0x1097F); (0x109B8, 0x109BB);
   (0x109D0, 0x109D1); (0x10A04, 0x10A04); (0x10A07, 0x10A0B); (0x10A14, 0x10A14);
   (0x10A18, 0x10A18); (0x10A36, 0x10A37); (0x10A3B, 0x10A3E); (0x10A49, 0x10A4F);
   (0x10A59, 0x10A5F); (0x10AA0, 0x10ABF); (0x10AE7, 0x10AEA); (0x10AF7, 0x10AFF);
   (0x10B36, 0x10B38); (0x10B56, 0x10B57); (0x10B73, 0x10B77); (0x10B92, 0x10B98);
   (0x10B9D, 0x10BA8); (0x10BB0, 0x10BFF); (0x10C49, 0x10C7F); (0x10CB3, 0x10CBF);
   (0x10CF3, 0x10CF9); (0x10D28, 0x10D2F); (0x10D3A, 0x10E5F); (0x10E7F, 0x10E7F);
   (0x10EAA, 0x10EAA); (0x10EAE, 0x10EAF); (0x10EB2, 0x10EFF); (0x10F28, 0x10F2F);
   (0x10F5A, 0x10F6F); (0x10F8A, 0x10FAF); (0x10FCC, 0x10FDF); (0x10FF7, 0x10FFF);
   (0x1104E, 0x11051); (0x11076, 0x1107E); (0x110BD, 0x110BD); (0x110C3, 0x110CF);
   (0x110E9, 0x110EF); (0x110FA, 0x110FF); (0x11135, 0x11135); (0x11148, 0x1114F);
   (0x11177, 0x1117F); (0x111E0, 0x111E0); (0x111F5, 0x111FF); (0x11212, 0x11212);
   (0x1123F, 0x1127F); (0x11287, 0x11287); (0x11289, 0x11289); (0x1128E, 0x1128E);
   (0x1129E, 0x1129E); (0x112AA, 0x112AF); (0x112EB, 0x112EF); (0x112FA, 0x112FF);
   (0x11304, 0x11304); (0x1130D, 0x1130E); (0x11311, 0x11312); (0x11329, 0x11329);
   (0x11331, 0x11331); (0x11334, 0x11334); (0x1133A, 0x1133A); (0x11345, 0x11346);
   (0x11349, 0x1134A); (0x1134E, 0x1134F); (0x11351, 0x11356); (0x11358, 0x1135C);
   (0x11364, 0x11365); (0x1136D, 0x1136F); (0x11375, 0x113FF); (0x1145C, 0x1145C);
   (0x11462, 0x1147F); (0x114C8, 0x114CF); (0x114DA, 0x1157F); (0x115B6, 0x115B7);
   (0x115DE, 0x115FF); (0x11645, 0x1164F); (0x1165A, 0x1165F); (0x1166D, 0x1167F);
   (0x116BA, 0x116BF); (0x116CA, 0x116FF); (0x1171B, 0x1171C); (0x1172C, 0x1172F);
   (0x11747, 0x117FF); (0x1183C, 0x1189F); (0x118F3, 0x118FE); (0x11907, 0x11908);
   (0x1190A, 0x1190B); (0x11914, 0x11914); (0x11917, 0x11917); (0x11936, 0x11936);
   (0x11939, 0x1193A); (0x11947, 0x1194F); (0x1195A, 0x1199F); (0x119A8, 0x119A9);
   (0x119D8, 0x119D9); (0x119E5, 0x119FF); (0x11A48, 0x11A4F); (0x11AA3, 0x11AAF);
   (0x11AF9, 0x11BFF); (0x11C09, 0x11C09); (0x11C37, 0x11C37); (0x11C46, 0x11C4F);
   (0x11C6D, 0x11C6F); (0x11C90, 0x11C91); (0x11CA8, 0x11CA8); (0x11CB7, 0x11CFF);
   (0x11D07, 0x11D07); (0x11D0A, 0x11D0A); (0x11D37, 0x11D39); (0x11D3B, 0x11D3B);
   (0x11D3E, 0x11D3E); (0x11D48, 0x11D4F); (0x11D5A, 0x11D5F); (0x11D66, 0x11D66);
   (0x11D69, 0x11D69); (0x11D8F, 0x11D8F); (0x11D92, 0x11D92); (0x11D99, 0x11D9F);
   (0x11DAA, 0x11EDF); (0x11EF9, 0x11FAF); (0x11FB1, 0x11FBF); (0x11FF2, 0x11FFE);
   (0x1239A, 0x123FF); (0x1246F, 0x1246F); (0x12475, 0x1247F); (0x12544, 0x12F8F);
   (0x12FF3, 0x12FFF); (0x1342F, 0x143FF); (0x14647, 0x167FF); (0x16A39, 0x16A3F);
   (0x16A5F, 0x16A5F); (0x16A6A, 0x16A6D); (0x16ABF, 0x16ABF); (0x16ACA, 0x16ACF);
   (0x16AEE, 0x16AEF); (0x16AF6, 0x16AFF); (0x16B46, 0x16B4F); (0x16B5A, 0x16B5A);
   (0x16B62, 0x16B62); (0x16B78, 0x16B7C); (0x16B90, 0x16E3F); (0x16E9B, 0x16EFF);
   (0x16F4B, 0x16F4E); (0x16F88, 0x16F8E); (0x16FA0, 0x16FDF); (0x16FE5, 0x16FEF);
   (0x16FF2, 0x16FFF); (0x187F8, 0x187FF); (0x18CD6, 0x18CFF); (0x18D09, 0x1AFEF);
   (0x1AFF4, 0x1AFF4); (0x1AFFC, 0x1AFFC); (0x1AFFF, 0x1AFFF); (0x1B123, 0x1B14F);
   (0x1B153, 0x1B163); (0x1B168, 0x1B16F); (0x1B2FC, 0x1BBFF); (0x1BC6B, 0x1BC6F);
   (0x1BC7D, 0x1BC7F); (0x1BC89, 0x1BC8F); (0x1BC9A, 0x1BC9B); (0x1BCA0, 0x1CEFF);
   (0x1CF2E, 0x1CF2F); (0x1CF47, 0x1CF4F); (0x1CFC4, 0x1CFFF); (0x1D0F6, 0x1D0FF);
   (0x1D127, 0x1D128); (0x1D173, 0x1D17A); (0x1D1EB, 0x1D1FF); (0x1D246, 0x1D2DF);
   (0x1D2F4, 0x1D2FF); (0x1D357, 0x1D35F); (0x1D379, 0x1D3FF); (0x1D455, 0x1D455);
   (0x1D49D, 0x1D49D); (0x1D4A0, 0x1D4A1); (0x1D4A3, 0x1D4A4); (0x1D4A7, 0x1D4A8);
   (0x1D4AD, 0x1D4AD); (0x1D4BA, 0x1D4BA); (0x1D4BC, 0x1D4BC); (0x1D4C4, 0x1D4C4);
   (0x1D506, 0x1D506); (0x1D50B, 0x1D50C); (0x1D515, 0x1D515); (0x1D51D, 0x1D51D);
   (0x1D53A, 0x1D53A); (0x1D53F, 0x1D53F); (0x1D545, 0x1D545); (0x1D547, 0x1D549);
   (0x1D551, 0x1D551); (0x1D6A6, 0x1D6A7); (0x1D7CC, 0x1D7CD); (0x1DA8C, 0x1DA9A);
   (0x1DAA0, 0x1DAA0); (0x1DAB0, 0x1DEFF); (0x1DF1F, 0x1DFFF); (0x1E007, 0x1E007);
   (0x1E019, 0x1E01A); (0x1E022, 0x1E022); (0x1E025, 0x1E025); (0x1E02B, 0x1E0FF);
   (0x1E12D, 0x1E12F); (0x1E13E, 0x1E13F); (0x1E14A, 0x1E14D); (0x1E150, 0x1E28F);
   (0x1E2AF, 0x1E2BF); (0x1E2FA, 0x1E2FE); (0x1E300, 0x1E7DF); (0x1E7E7, 0x1E7E7);
   (0x1E7EC, 0x1E7EC); (0x1E7EF, 0x1E7EF); (0x1E7FF, 0x1E7FF); (0x1E8C5, 0x1E8C6);
   (0x1E8D7, 0x1E8FF); (0x1E94C, 0x1E94F); (0x1E95A, 0x1E95D); (0x1E960, 0x1EC70);
   (0x1ECB5, 0x1ED00); (0x1ED3E, 0x1EDFF); (0x1EE04, 0x1EE04); (0x1EE20, 0x1EE20);
   (0x1EE23, 0x1EE23); (0x1EE25, 0x1EE26); (0x1EE28, 0x1EE28); (0x1EE33, 0x1EE33);
   (0x1EE38, 0x1EE38); (0x1EE3A, 0x1EE3A); (0x1EE3C, 0x1EE41); (0x1EE43, 0x1EE46);
   (0x1EE48, 0x1EE48); (0x1EE4A, 0x1EE4A); (0x1EE4C, 0x1EE4C); (0x1EE50, 0x1EE50);
   (0x1EE53, 0x1EE53); (0x1EE55, 0x1EE56); (0x1EE58, 0x1EE58); (0x1EE5A, 0x1EE5A);
   (0x1EE5C, 0x1EE5C); (0x1EE5E, 0x1EE5E); (0x1EE60, 0x1EE60); (0x1EE63, 0x1EE63);
   (0x1EE65, 0x1EE66); (0x1EE6B, 0x1EE6B); (0x1EE73, 0x1EE73); (0x1EE78, 0x1EE78);
   (0x1EE7D, 0x1EE7D); (0x1EE7F, 0x1EE7F); (0x1EE8A, 0x1EE8A); (0x1EE9C, 0x1EEA0);
   (0x1EEA4, 0x1EEA4); (0x1EEAA, 0x1EEAA); (0x1EEBC, 0x1EEEF); (0x1EEF2, 0x1EFFF);
   (0x1F02C, 0x1F02F); (0x1F094, 0x1F09F); (0x1F0AF, 0x1F0B0); (0x1F0C0, 0x1F0C0);
   (0x1F0D0, 0x1F0D0); (0x1F0F6, 0x1F0FF); (0x1F1AE, 0x1F1E5); (0x1F203, 0x1F20F);
   (0x1F23C, 0x1F23F); (0x1F249, 0x1F24F); (0x1F252, 0x1F25F); (0x1F266, 0x1F2FF);
   (0x1F6D8, 0x1F6DC); (0x1F6ED, 0x1F6EF); (0x1F6FD, 0x1F6FF); (0x1F774, 0x1F77F);
   (0x1F7D9, 0x1F7DF); (0x1F7EC, 0x1F7EF); (0x1F7F1, 0x1F7FF); (0x1F80C, 0x1F80F);
   (0x1F848, 0x1F84F); (0x1F85A, 0x1F85F); (0x1F888, 0x1F88F); (0x1F8AE, 0x1F8AF);
   (0x1F8B2, 0x1F8FF); (0x1FA54, 0x1FA5F); (0x1FA6E, 0x1FA6F); (0x1FA75, 0x1FA77);
   (0x1FA7D, 0x1FA7F); (0x1FA87, 0x1FA8F); (0x1FAAD, 0x1FAAF); (0x1FABB, 0x1FABF);
   (0x1FAC6, 0x1FACF); (0x1FADA, 0x1FADF); (0x1FAE8, 0x1FAEF); (0x1FAF7, 0x1FAFF);
   (0x1FB93, 0x1FB93); (0x1FBCB, 0x1FBEF); (0x1FBFA, 0x1FFFF); (0x2A6E0, 0x2A6FF);
   (0x2B739, 0x2B73F); (0x2B81E, 0x2B81F); (0x2CEA2, 0x2CEAF); (0x2EBE1, 0x2F7FF);
   (0x2FA1E, 0x2FFFF); (0x3134B, 0xE00FF); (0xE01F0, 0x10FFFF)
  ].

End Unicode.

(** [ch.upper()] for one character: the code points of its upper case. *)
Definition upper_char (cp : Z) : list Z :=
  match find (fun e => fst e =? cp) Unicode.upper_special with
  | Some e => snd e
  | None =>
      match find (fun r => let '(first, last, step, _) := r in
                           (first <=? cp) && (cp <=? last)
                           && ((cp - first) mod step =? 0)) Unicode.upper_runs with
      | Some (_, _, _, offset) => [cp + offset]
      | None => [cp]
      end
  end.

(** [ch.isprintable()] for one character. *)
Definition printable (cp : Z) : bool :=
  negb (existsb (fun r => (fst r <=? cp) && (cp <=? snd r)) Unicode.unprintable).

(** *** str.upper and str.rstrip

    [str.upper] maps every character to its upper case, whatever stands
    around it. *)

Definition upper (s : string) : string :=
  String.concat EmptyString
    (map (fun ch =>
            match fst ch with
            | Some cp => String.concat EmptyString (map utf8_encode (upper_char cp))
            | None => snd ch
            end) (utf8_decode s)).

Fixpoint rstrip_slash (s : string) : string :=
  match s with
  | EmptyString => EmptyString
  | String c rest =>
      match rstrip_slash rest with
      | EmptyString => if Ascii.eqb c "/" then EmptyString else String c EmptyString
      | rest' => String c rest'
      end
  end.

(** *** str(int) *)

Definition str_of_int (z : Z) : string := NilZero.string_of_int (Z.to_int z).

(** *** repr(float)

    The shortest decimal that reads back as the same binary64, found with
    exact integer arithmetic, then laid out as [float_repr] does: plain
    notation when the decimal point falls in [-4 < decpt <= 16], exponent
    notation otherwise. *)

Module FloatRepr.

(** [cmp_scaled d j x q] compares [d * 10^j] with [x * 2^q]. *)
Definition cmp_scaled (d j x q : Z) : comparison :=
  let l := d * 10 ^ Z.max j 0 * 2 ^ Z.max (- q) 0 in
  let r := x * 2 ^ Z.max q 0 * 10 ^ Z.max (- j) 0 in
  l ?= r.

(** [floor (x * 2^q / 10^j)]. *)
Definition div_scaled (x q j : Z) : Z :=
  (x * 2 ^ Z.max q 0 * 10 ^ Z.max (- j) 0) / (10 ^ Z.max j 0 * 2 ^ Z.max (- q) 0).

(** The largest [k] with [10^k <= m * 2^e], searched upwards from an
    underestimate. *)
Fixpoint exp10_from (fuel : nat) (m e k : Z) : Z :=
  match fuel with
  | O => k
  | S f =>
      match cmp_scaled 1 (k + 1) m e with
      | Gt => k
      | _ => exp10_from f m e (k + 1)
      end
  end.

Definition exp10 (m e : Z) : Z :=
  exp10_from 8 m e (((Z.log2 m + e) * 30103) / 100000 - 2).

(** The neighbourhood of [m * 2^e] that rounds to it, in units of
    [2^(e-2)]: the midpoints to the next binary64 on each side, included
    when the mantissa is even. *)
Definition lo4 (m e : Z) : Z :=
  if (m =? 2 ^ 52) && (-1074 <? e) then 4 * m - 1 else 4 * m - 2.
Definition hi4 (m : Z) : Z := 4 * m + 2.

Definition in_interval (m e d j : Z) : bool :=
  let incl := Z.even m in
  let above_lo :=
    match cmp_scaled d j (lo4 m e) (e - 2) with
    | Gt => true | Eq => incl | Lt => false end in
  let below_hi :=
    match cmp_scaled d j (hi4 m) (e - 2) with
    | Lt => true | Eq => incl | Gt => false end in
  above_lo && below_hi.

(** With [n] significant digits: the two decimals [d * 10^j] around the
    value, and the one to keep, if either reads back. *)
Definition candidate (m e k : Z) (n : Z) : option (Z * Z) :=
  let j := k - n + 1 in
  let d1 := div_scaled (4 * m) (e - 2) j in
  let d2 := d1 + 1 in
  let ok1 := in_interval m e d1 j in
  let ok2 := in_interval m e d2 j in
  (* which of d1, d2 is nearer: compare 2 * value with (d1 + d2) * 10^j *)
  let nearer_low :=
    match cmp_scaled (d1 + d2) j (8 * m) (e - 2) with
    | Gt => true | Eq => Z.even d1 | Lt => false end in
  if ok1 && ok2 then Some (if nearer_low then d1 else d2, j)
  else if ok1 then Some (d1, j)
  else if ok2 then Some (d2, j)
  else None.

Fixpoint shortest_from (fuel : nat) (m e k n : Z) : Z * Z :=
  match fuel with
  | O => (div_scaled (4 * m) (e - 2) (k - n + 1), k - n + 1)
  | S f =>
      match candidate m e k n with
      | Some r => r
      | None => shortest_from f m e k (n + 1)
      end
  end.

Fixpoint strip_zeros (fuel : nat) (d j : Z) : Z * Z :=
  match fuel with
  | O => (d, j)
  | S f => if (d mod 10 =? 0) && negb (d =? 0) then strip_zeros f (d / 10) (j + 1) else (d, j)
  end.

(** The digits and the position of the decimal point: the value is
    [0.digits * 10^decpt]. *)
Definition shortest (m e : Z) : string * Z :=
  let k := exp10 m e in
  let '(d, j) := shortest_from 17 m e k 1 in
  let '(d, j) := strip_zeros 20 d j in
  let ds := str_of_int d in
  (ds, Z.of_nat (String.length ds) + j).

Fixpoint zeros (n : nat) : string :=
  match n with O => EmptyString | S n' => String "0" (zeros n') end.

Definition layout (ds : string) (decpt : Z) : string :=
  let len := Z.of_nat (String.length ds) in
  if (decpt <=? -4) || (16 <? decpt) then
    let ex := decpt - 1 in
    let mant :=
      match ds with
      | String c EmptyString => String c EmptyString
      | String c rest => String c ("." ++ rest)
      | EmptyString => EmptyString
      end in
    let ea := str_of_int (Z.abs ex) in
    mant ++ "e" ++ (if ex <? 0 then "-" else "+")
         ++ (if Z.abs ex <? 10 then "0" ++ ea else ea)
  else if decpt <=? 0 then
    "0." ++ zeros (Z.to_nat (- decpt)) ++ ds
  else if decpt <? len then
    substring 0 (Z.to_nat decpt) ds ++ "."
      ++ substring (Z.to_nat decpt) (Z.to_nat (len - decpt)) ds
  else
    ds ++ zeros (Z.to_nat (decpt - len)) ++ ".0".

Definition float_repr (f : float) : string :=
  match Prim2SF f with
  | S754_zero s => if s then "-0.0" else "0.0"
  | S754_infinity s => if s then "-inf" else "inf"
  | S754_nan => "nan"
  | S754_finite s m e =>
      let '(ds, decpt) := shortest (Zpos m) e in
      (if s then "-" else EmptyString) ++ layout ds decpt
  end.

End FloatRepr.

Definition float_repr := FloatRepr.float_repr.

(** *** repr(str), repr and str of a value

    [repr] of a string picks the quote as [unicode_repr] does (single,
    unless the text holds a single quote and no double quote) and escapes
    the quote, the backslash, the control characters and, outside ASCII,
    the characters that are not printable. *)

Definition squote : ascii := ascii_of_N 39.
Definition dquote : ascii := ascii_of_N 34.
Definition backslash : ascii := ascii_of_N 92.

Fixpoint has_char (c : ascii) (s : string) : bool :=
  match s with
  | EmptyString => false
  | String c' rest => Ascii.eqb c c' || has_char c rest
  end.

(** The [n] lowercase hexadecimal digits of [x]. *)
Fixpoint hex_digits (n : nat) (x : Z) : string :=
  match n with
  | O => EmptyString
  | S n' => hex_digits n' (x / 16) ++ String (hex_digit (x mod 16)) EmptyString
  end.

Definition repr_char (q : ascii) (ch : option Z * string) : string :=
  match fst ch with
  | None => snd ch
  | Some cp =>
      if (cp =? byte_of q) || (cp =? 92) then String backslash (snd ch)
      else if cp =? 9 then String backslash "t"
      else if cp =? 10 then String backslash "n"
      else if cp =? 13 then String backslash "r"
      else if (cp <? 32) || (cp =? 127) then String backslash ("x" ++ hex_digits 2 cp)
      else if cp <? 127 then snd ch
      else if printable cp then snd ch
      else if cp <? 256 then String backslash ("x" ++ hex_digits 2 cp)
      else if cp <? 65536 then String backslash ("u" ++ hex_digits 4 cp)
      else String backslash ("U" ++ hex_digits 8 cp)
  end.

Definition str_repr (s : string) : string :=
  let q := if has_char squote s && negb (has_char dquote s) then dquote else squote in
  String q (String.concat EmptyString (map (repr_char q) (utf8_decode s))
            ++ String q EmptyString).

Fixpoint join (sep : string) (parts : list string) : string :=
  match parts with
  | [] => EmptyString
  | [p] => p
  | p :: rest => p ++ sep ++ join sep rest
  end.

Fixpoint py_repr (v : pyval) : string :=
  match v with
  | VNone => "None"
  | VBool b => if b then "True" else "False"
  | VInt z => str_of_int z
  | VFloat f => float_repr f
  | VStr s => str_repr s
  | VList l => "[" ++ join ", " (map py_repr l) ++ "]"
  | VDict d =>
      "{" ++ join ", " (map (fun kv => let '(k, x) := kv in str_repr k ++ ": " ++ py_repr x) d)
          ++ "}"
  end.

(** [str(v)], also what an f-string field and [%s] produce. *)
Definition py_str (v : pyval) : string :=
  match v with
  | VStr s => s
  | _ => py_repr v
  end.

(** [type(v).__name__], which the interpreter's error texts quote. *)
Definition type_name (v : pyval) : string :=
  match v with
  | VNone => "NoneType"
  | VBool _ => "bool"
  | VInt _ => "int"
  | VFloat _ => "float"
  | VStr _ => "str"
  | VList _ => "list"
  | VDict _ => "dict"
  end.

(** *** urllib.parse.quote_plus and urlencode(query, doseq=True) *)

Definition always_safe (c : ascii) : bool :=
  let n := N_of_ascii c in
  (((65 <=? n) && (n <=? 90)) || ((97 <=? n) && (n <=? 122))
   || ((48 <=? n) && (n <=? 57))
   || (n =? 95) || (n =? 46) || (n =? 45) || (n =? 126))%N.

Definition quote_char (c : ascii) : string :=
  let n := Z.of_N (N_of_ascii c) in
  if always_safe c then String c EmptyString
  else if n =? 32 then "+"
  else String "%" (String (hex_upper_digit (n / 16)) (String (hex_upper_digit (n mod 16)) EmptyString)).

Fixpoint quote_plus (s : string) : string :=
  match s with
  | EmptyString => EmptyString
  | String c rest => quote_char c ++ quote_plus rest
  end.

(** One item of the query.  A string gives one [k=v]; a value with a
    [len] gives one [k=elt] per element (the keys, for a [dict]); anything
    else gives [k=str(v)]. *)
Definition urlencode_item (k : string) (v : pyval) : list string :=
  let field x := quote_plus k ++ "=" ++ quote_plus x in
  match v with
  | VStr s => [field s]
  | VList l => map (fun elt => field (py_str elt)) l
  | VDict d => map (fun kv => field (fst kv)) d
  | _ => [field (py_str v)]
  end.

Definition urlencode (query : pydict) : string :=
  join "&" (flat_map (fun kv => urlencode_item (fst kv) (snd kv)) query).

(** *** A JSON text for a value

    Compact JSON that parses back to the value, for values whose strings
    hold no control character; the sample responses below carry it as their
    body. *)

Fixpoint json_chars (s : string) : string :=
  match s with
  | EmptyString => EmptyString
  | String c rest =>
      if Ascii.eqb c dquote || Ascii.eqb c backslash
      then String backslash (String c (json_chars rest))
      else String c (json_chars rest)
  end.

Definition json_string (s : string) : string :=
  String dquote (json_chars s ++ String dquote EmptyString).

Fixpoint json_text (v : pyval) : string :=
  match v with
  | VNone => "null"
  | VBool b => if b then "true" else "false"
  | VInt z => str_of_int z
  | VFloat f => float_repr f
  | VStr s => json_string s
  | VList l => "[" ++ join "," (map json_text l) ++ "]"
  | VDict d =>
      "{" ++ join "," (map (fun kv => let '(k, x) := kv in json_string k ++ ":" ++ json_text x) d)
          ++ "}"
  end.

(** *** Arithmetic between [int] and [float]

    [float(n)] and the [int] operand of [float / int] round the integer to
    the nearest binary64 (ties to even) and raise [OverflowError] beyond
    the largest one; [int / int] is the correctly rounded quotient. *)

Definition int_to_float (z : Z) : option float :=
  match binary_normalize prec emax z 0 false with
  | S754_infinity _ => None
  | sf => Some (SF2Prim sf)
  end.

Definition int_to_spec (z : Z) : spec_float :=
  match z with
  | Z0 => S754_zero false
  | Zpos p => S754_finite false p 0
  | Zneg p => S754_finite true p 0
  end.

(** ** Exceptions, the outside world and the effect monad *)

Inductive exn_class : Type :=
| ValueError | TypeError | KeyError | AttributeError | OverflowError
| ZeroDivisionError
| JSONDecodeError      (* raised by [Response.json()] *)
| RequestException     (* any transport failure of [requests] *)
| OSError              (* a system call that fails *)
| BinanceAPIError.

(** An exception object: its class and its [str()]. *)
Record exn : Type := Raised { exn_class_of : exn_class; exn_text : string }.

Inductive outcome (A : Type) : Type :=
| Return (a : A)
| Raise (e : exn).
Arguments Return {A} a.
Arguments Raise {A} e.

(** What [Response.json()] gives: the parsed body or the decoder's error. *)
Inductive json_outcome : Type :=
| JsonValue (v : pyval)
| JsonError (msg : string).

(** A [requests.Response] as the bot reads it. *)
Record response : Type :=
  { status_code : Z; text : string; json : json_outcome }.

(** [Response.ok]: [raise_for_status] would not raise, that is, the status
    is not in 400..599. *)
Definition ok (r : response) : bool :=
  negb ((400 <=? status_code r) && (status_code r <? 600)).

Inductive net_outcome : Type :=
| NetRaise (msg : string)          (* the call raises RequestException *)
| NetReply (r : response).

(** The environment of a run: what the [n]-th HTTP call of the run meets,
    what [int(time.time() * 1000)] reads after [n] events, and what a sleep
    begun after [n] events meets: [None] when the process sleeps its time,
    [Some msg] when the system call fails and [OSError(msg)] is raised. *)
Record world : Type :=
  { net : nat -> net_outcome; wall_clock_ms : nat -> Z; nap : nat -> option string }.

Inductive verb : Type := GET | POST | DELETE.

(** What the bot does to the outside: the calls on [self.session] with
    their arguments, and [time.sleep].  Logging is left out. *)
Inductive event : Type :=
| EvHttp (v : verb) (url : string) (params : option pydict) (timeout : Z)
| EvSleep (seconds : pyval).

Definition trace := list event.

Definition is_http (ev : event) : bool :=
  match ev with EvHttp _ _ _ _ => true | EvSleep _ => false end.

Definition http_calls (tr : trace) : list event := filter is_http tr.

(** A computation reads the world, extends the trace of events and either
    returns or raises. *)
Definition M (A : Type) : Type := world -> trace -> outcome A * trace.

Definition ret {A} (a : A) : M A := fun _ tr => (Return a, tr).
Definition raise {A} (c : exn_class) (msg : string) : M A :=
  fun _ tr => (Raise (Raised c msg), tr).
Definition bind {A B} (m : M A) (k : A -> M B) : M B :=
  fun w tr =>
    match m w tr with
    | (Return a, tr') => k a w tr'
    | (Raise e, tr') => (Raise e, tr')
    end.

(** [try: m  except Exception as e: handler e] *)
Definition try_except {A} (m : M A) (handler : exn -> M A) : M A :=
  fun w tr =>
    match m w tr with
    | (Return a, tr') => (Return a, tr')
    | (Raise e, tr') => handler e w tr'
    end.

Notation "x <- m ;; k" := (bind m (fun x => k))
  (at level 61, m at next level, right associativity).
Notation "m ;;; k" := (bind m (fun _ => k))
  (at level 61, right associativity).

(** [self.session.get/post/delete(url, params=..., timeout=...)] *)
Definition session_call (v : verb) (url : string) (params : option pydict)
    (timeout : Z) : M response :=
  fun w tr =>
    let tr' := (tr ++ [EvHttp v url params timeout])%list in
    match net w (List.length (http_calls tr)) with
    | NetRaise msg => (Raise (Raised RequestException msg), tr')
    | NetReply r => (Return r, tr')
    end.

(** [int(time.time() * 1000)] *)
Definition local_time_ms : M Z :=
  fun w tr => (Return (wall_clock_ms w (List.length tr)), tr).

(** [time.sleep(seconds)].  Before anything is slept, the argument is turned
    into a number of nanoseconds held in a signed 64-bit integer: a [float]
    is multiplied by 1e9 and rounded away from zero, an [int] is multiplied
    by 10^9.  What does not fit raises [OverflowError], what is negative
    raises [ValueError]; the product 2^63 passes the range check of CPython
    3.11 and wraps to a negative number.  [sleep_error] is the exception of
    that stage, if any. *)
Definition sleep_error (seconds : pyval) : option exn :=
  let too_large := Raised OverflowError "timestamp too large to convert to C _PyTime_t" in
  let negative := Raised ValueError "sleep length must be non-negative" in
  let of_int n :=
    if (n <? -9223372036) || (9223372036 <? n) then Some too_large
    else if n <? 0 then Some negative
    else None in
  match seconds with
  | VFloat f =>
      let ns := (f * 1e9)%float in
      if PrimFloat.is_nan f then Some (Raised ValueError "Invalid value NaN (not a number)")
      else if negb (PrimFloat.leb (-0x1p63)%float ns && PrimFloat.leb ns 0x1p63%float)
      then Some too_large
      else if PrimFloat.ltb ns 0%float || PrimFloat.eqb ns 0x1p63%float then Some negative
      else None
  | VInt n => of_int n
  | VBool b => of_int (if b then 1 else 0)
  | _ => Some (Raised TypeError
                 ("'" ++ type_name seconds ++ "' object cannot be interpreted as an integer"))
  end.

Definition sleep (seconds : pyval) : M unit :=
  fun w tr =>
    match sleep_error seconds with
    | Some e => (Raise e, tr)
    | None =>
        match nap w (List.length tr) with
        | Some msg => (Raise (Raised OSError msg), tr)
        | None => (Return tt, (tr ++ [EvSleep seconds])%list)
        end
    end.

(** [resp.json()] *)
Definition resp_json (r : response) : M pyval :=
  match json r with
  | JsonValue v => ret v
  | JsonError msg => raise JSONDecodeError msg
  end.

(** [data[key]] *)
Definition subscript (data : pyval) (key : string) : M pyval :=
  match data with
  | VDict d =>
      match dict_get d key with
      | Some v => ret v
      | None => raise KeyError (str_repr key)
      end
  | VList _ => raise TypeError "list indices must be integers or slices, not str"
  | VStr _ => raise TypeError "string indices must be integers, not 'str'"
  | _ => raise TypeError ("'" ++ type_name data ++ "' object is not subscriptable")
  end.

(** [v + n] for an [int] literal [n] *)
Definition add_int (v : pyval) (n : Z) : M pyval :=
  match v with
  | VInt z => ret (VInt (z + n))
  | VBool b => ret (VInt ((if b then 1 else 0) + n))
  | VFloat f =>
      match int_to_float n with
      | Some g => ret (VFloat (f + g)%float)
      | None => raise OverflowError "int too large to convert to float"
      end
  | VStr _ => raise TypeError ("can only concatenate str (not " ++ String dquote ("int" ++ String dquote ") to str"))
  | VList _ => raise TypeError ("can only concatenate list (not " ++ String dquote ("int" ++ String dquote ") to list"))
  | _ => raise TypeError ("unsupported operand type(s) for +: '" ++ type_name v ++ "' and 'int'")
  end.

(** [v < 0] *)
Definition lt_zero (v : pyval) : M bool :=
  match v with
  | VInt z => ret (z <? 0)
  | VBool _ => ret false
  | VFloat f => ret (float_is_neg f)
  | _ => raise TypeError ("'<' not supported between instances of '" ++ type_name v ++ "' and 'int'")
  end.

(** [v > 0] *)
Definition gt_zero (v : pyval) : M bool :=
  match v with
  | VInt z => ret (0 <? z)
  | VBool b => ret b
  | VFloat f => ret (float_is_pos f)
  | _ => raise TypeError ("'>' not supported between instances of '" ++ type_name v ++ "' and 'int'")
  end.

(** [j.get(key)]: [None] when the key is missing; only a [dict] has [get]. *)
Definition method_get (j : pyval) (key : string) : M pyval :=
  match j with
  | VDict d => ret match dict_get d key with Some v => v | None => VNone end
  | _ => raise AttributeError ("'" ++ type_name j ++ "' object has no attribute 'get'")
  end.

Definition throw {A} (e : exn) : M A := fun _ tr => (Raise e, tr).

Definition lift {A} (o : outcome A) : M A := fun _ tr => (o, tr).

(** [x / n] for a [float] [x] and an [int] [n]: the integer is converted
    first; the converted divisor is zero exactly when [n] is. *)
Definition float_div_int (x : float) (n : Z) : outcome float :=
  match int_to_float n with
  | None => Raise (Raised OverflowError "int too large to convert to float")
  | Some d =>
      if n =? 0 then Raise (Raised ZeroDivisionError "float division by zero")
      else Return (x / d)%float
  end.

(** [a / b] for two [int]s *)
Definition int_truediv (a b : Z) : outcome float :=
  if b =? 0 then Raise (Raised ZeroDivisionError "division by zero")
  else
    match SFdiv prec emax (int_to_spec a) (int_to_spec b) with
    | S754_infinity _ =>
        Raise (Raised OverflowError "integer division result too large for a float")
    | sf => Return (SF2Prim sf)
    end.

(** [range(n)] *)
Definition range (n : Z) : list Z := map Z.of_nat (seq 0 (Z.to_nat n)).

(** [for i in xs: acc = body(i, acc)] *)
Fixpoint for_loop {A} (xs : list Z) (body : Z -> A -> M A) (acc : A) : M A :=
  match xs with
  | [] => ret acc
  | i :: rest => acc' <- body i acc ;; for_loop rest body acc'
  end.

(** ** basic_bot.py *)

Definition TESTNET_BASE : string := "https://testnet.binancefuture.com".
Definition ORDER_PATH : string := "/fapi/v1/order".
Definition RECV_WINDOW : Z := 15000.

(** The fields of a [BasicBot]; [self.session] is the outside world. *)
Record BasicBot : Type :=
  { api_key : string; api_secret : string; base_url : string; dry_run : bool }.

(** [BasicBot.__init__] *)
Definition BasicBot_init (api_key api_secret base_url : string) (dry_run : bool)
    : BasicBot :=
  {| api_key := api_key;
     api_secret := api_secret;          (* api_secret.encode("utf-8") *)
     base_url := rstrip_slash base_url;
     dry_run := dry_run |}.

Definition get_server_time (self : BasicBot) : M pyval :=
  let url := base_url self ++ "/fapi/v1/time" in
  resp <- session_call GET url None 5 ;;
  data <- resp_json resp ;;
  subscript data "serverTime".

Definition _sign (self : BasicBot) (params : pydict) : string :=
  let qs := urlencode params in
  hmac_sha256_hexdigest (api_secret self) qs.

Definition _timestamped_params (self : BasicBot) (extra : pydict) : M pydict :=
  let p := extra in
  p <- try_except
         (server_time <- get_server_time self ;;
          t <- add_int server_time 500 ;;
          ret (dict_set p "timestamp" t))
         (fun e =>
          t <- local_time_ms ;;
          ret (dict_set p "timestamp" (VInt t))) ;;
  ret (dict_set p "recvWindow" (VInt RECV_WINDOW)).

(** The dictionary a dry run returns. *)
Definition dry_run_echo (method url : string) (full_params : pydict) : pyval :=
  VDict [("dry_run", VBool true); ("method", VStr method); ("url", VStr url);
         ("params", VDict full_params)].

Definition request (self : BasicBot) (method path : string)
    (params : option pydict) (signed : bool) : M pyval :=
  let params := match params with None => [] | Some p => p end in
  let url := base_url self ++ path in
  try_except
    (full_params <-
       (if signed then
          full_params <- _timestamped_params self params ;;
          let signature := _sign self full_params in
          ret (dict_set full_params "signature" (VStr signature))
        else ret params) ;;
     if dry_run self then
       ret (dry_run_echo method url full_params)
     else
       resp <-
         (if String.eqb (upper method) "GET" then
            session_call GET url (Some full_params) 10
          else if String.eqb (upper method) "POST" then
            session_call POST url (Some full_params) 10
          else if String.eqb (upper method) "DELETE" then
            session_call DELETE url (Some full_params) 10
          else raise ValueError ("Unsupported method: " ++ method)) ;;
       j <- (if negb (String.eqb (text resp) EmptyString) then resp_json resp
             else ret (VDict [])) ;;
       (if negb (ok resp) then
          m <- method_get j "msg" ;;
          let msg := if truthy m then m else VStr (text resp) in
          raise BinanceAPIError
            ("HTTP " ++ str_of_int (status_code resp) ++ " error: " ++ py_str msg)
        else ret tt) ;;;
       functional_error <-
         (match j with
          | VDict d =>
              let code := match dict_get d "code" with Some c => c | None => VNone end in
              if truthy code then lt_zero code else ret false
          | _ => ret false
          end) ;;
       if functional_error then raise BinanceAPIError ("Binance error: " ++ py_str j)
       else ret j)
    (* except requests.RequestException: logged, then raised again *)
    (fun e => throw e).

(** [str(b).lower()] for a [bool] *)
Definition bool_lower (b : bool) : string := if b then "true" else "false".

(** The part of [place_order] that precedes the request: normalisation,
    validation and the parameter dictionary. *)
Definition order_params (symbol side order_type : string) (quantity : float)
    (price : option float) (time_in_force : string)
    (reduce_only close_position : bool) (position_side : option string)
    : outcome pydict :=
  let symbol := upper symbol in
  let side := upper side in
  let order_type := upper order_type in
  if negb (String.eqb side "BUY" || String.eqb side "SELL") then
    Raise (Raised ValueError "side must be BUY or SELL")
  else if negb (String.eqb order_type "MARKET" || String.eqb order_type "LIMIT") then
    Raise (Raised ValueError "order_type must be MARKET or LIMIT")
  else
    let params :=
      [("symbol", VStr symbol); ("side", VStr side); ("type", VStr order_type);
       ("quantity", VFloat quantity);
       ("reduceOnly", VStr (bool_lower reduce_only));
       ("closePosition", VStr (bool_lower close_position))] in
    let params :=
      match position_side with
      | Some ps => if truthy (VStr ps) then dict_set params "positionSide" (VStr ps) else params
      | None => params
      end in
    if String.eqb order_type "LIMIT" then
      match price with
      | None => Raise (Raised ValueError "LIMIT orders require a price")
      | Some p =>
          let params := dict_set params "price" (VStr (float_repr p)) in
          Return (dict_set params "timeInForce" (VStr time_in_force))
      end
    else Return params.

Definition place_order (self : BasicBot) (symbol side order_type : string)
    (quantity : float) (price : option float) (time_in_force : string)
    (reduce_only close_position : bool) (position_side : option string)
    : M pyval :=
  params <- lift (order_params symbol side order_type quantity price
                    time_in_force reduce_only close_position position_side) ;;
  request self "POST" ORDER_PATH (Some params) true.

Definition place_market_order (self : BasicBot) (symbol side : string)
    (quantity : float) (reduce_only : bool) (position_side : option string)
    : M pyval :=
  place_order self symbol side "MARKET" quantity None "GTC" reduce_only false
    position_side.

Definition place_limit_order (self : BasicBot) (symbol side : string)
    (quantity price : float) (time_in_force : string) (reduce_only : bool)
    (position_side : option string) : M pyval :=
  place_order self symbol side "LIMIT" quantity (Some price) time_in_force
    reduce_only false position_side.

(** The entry recorded for a slice that raised. *)
Definition error_entry (e : exn) : pyval := VDict [("error", VStr (exn_text e))].

(** One turn of the loop of [place_twap_order]. *)
Definition twap_slice (self : BasicBot) (symbol side : string)
    (slice_qty : float) (interval : pyval) (slices : Z)
    (i : Z) (responses : list pyval) : M (list pyval) :=
  responses <-
    try_except
      (resp <- place_market_order self symbol side slice_qty false None ;;
       ret (responses ++ [resp])%list)
      (fun e => ret (responses ++ [error_entry e])%list) ;;
  go <- (if i <? slices - 1 then gt_zero interval else ret false) ;;
  (if go then sleep interval else ret tt) ;;;
  ret responses.

Definition place_twap_order (self : BasicBot) (symbol side : string)
    (quantity : float) (slices duration : Z) : M (list pyval) :=
  if slices <? 1 then raise ValueError "slices must be >= 1"
  else if duration <? 0 then raise ValueError "duration must be >= 0"
  else
    slice_qty <- lift (float_div_int quantity slices) ;;
    interval <- (if 0 <? slices then
                   f <- lift (int_truediv duration slices) ;; ret (VFloat f)
                 else ret (VInt 0)) ;;
    for_loop (range slices)
      (twap_slice self symbol side slice_qty interval slices) [].

(** * The vocabulary of the statements *)

(** The one call [get_server_time] makes. *)
Definition time_call (self : BasicBot) : event :=
  EvHttp GET (base_url self ++ "/fapi/v1/time") None 5.

(** The reading of the local clock taken when the time call has failed. *)
Definition fallback_ms (w : world) (tr : trace) : Z :=
  wall_clock_ms w (S (List.length tr)).

(** The stamp [_timestamped_params] puts on a request, read off the
    outcome of the time call. *)
Definition stamp_of (w : world) (tr : trace) : pyval :=
  match net w (List.length (http_calls tr)) with
  | NetRaise _ => VInt (fallback_ms w tr)
  | NetReply r =>
      match json r with
      | JsonError _ => VInt (fallback_ms w tr)
      | JsonValue data =>
          match fst ((st <- subscript data "serverTime" ;; add_int st 500) w []) with
          | Return t => t
          | Raise _ => VInt (fallback_ms w tr)
          end
      end
  end.

(** The parameters of a signed request: stamped, then signed, the
    signature stored last. *)
Definition signed_params (self : BasicBot) (params : pydict) (w : world)
    (tr : trace) : pydict :=
  let stamped := dict_set (dict_set params "timestamp" (stamp_of w tr))
                   "recvWindow" (VInt RECV_WINDOW) in
  dict_set stamped "signature" (VStr (_sign self stamped)).

Definition params_or_empty (params : option pydict) : pydict :=
  match params with None => [] | Some p => p end.

Definition demo_world : world :=
  {| net := fun _ => NetRaise "connection refused";
     wall_clock_ms := fun _ => 1700000000000;
     nap := fun _ => None |}.

Definition numeric (v : pyval) : bool :=
  match v with VInt _ | VFloat _ | VBool _ => true | _ => false end.

(** The session method a method string selects, if any. *)
Definition verb_of (method : string) : option verb :=
  if String.eqb (upper method) "GET" then Some GET
  else if String.eqb (upper method) "POST" then Some POST
  else if String.eqb (upper method) "DELETE" then Some DELETE
  else None.

(** What [request] does with a response once it has one: parse, then
    classify. *)
Definition classify (resp : response) : M pyval :=
  j <- (if negb (String.eqb (text resp) EmptyString) then resp_json resp
        else ret (VDict [])) ;;
  (if negb (ok resp) then
     m <- method_get j "msg" ;;
     let msg := if truthy m then m else VStr (text resp) in
     raise BinanceAPIError
       ("HTTP " ++ str_of_int (status_code resp) ++ " error: " ++ py_str msg)
   else ret tt) ;;;
  functional_error <-
    (match j with
     | VDict d =>
         let code := match dict_get d "code" with Some c => c | None => VNone end in
         if truthy code then lt_zero code else ret false
     | _ => ret false
     end) ;;
  if functional_error then raise BinanceAPIError ("Binance error: " ++ py_str j)
  else ret j.

(** The three steps of [request], cut out of its body: the parameters to
    send, the call on the session the method selects, and the whole of what
    follows the preparation. *)
Definition prepare (self : BasicBot) (params : pydict) (signed : bool) : M pydict :=
  if signed then
    full_params <- _timestamped_params self params ;;
    let signature := _sign self full_params in
    ret (dict_set full_params "signature" (VStr signature))
  else ret params.

Definition dispatch (method url : string) (full_params : pydict) : M response :=
  if String.eqb (upper method) "GET" then
    session_call GET url (Some full_params) 10
  else if String.eqb (upper method) "POST" then
    session_call POST url (Some full_params) 10
  else if String.eqb (upper method) "DELETE" then
    session_call DELETE url (Some full_params) 10
  else raise ValueError ("Unsupported method: " ++ method).

Definition send (self : BasicBot) (method url : string) (full_params : pydict)
    : M pyval :=
  if dry_run self then ret (dry_run_echo method url full_params)
  else resp <- dispatch method url full_params ;; classify resp.

(** A computation that reads no clock and leaves the trace alone. *)
Definition pure {A} (m : M A) : Prop :=
  forall w tr, m w tr = (fst (m w []), tr).

(** The parameters and the trace with which the call itself is made. *)
Definition full_params_of (self : BasicBot) (params : option pydict)
    (signed : bool) (w : world) (tr : trace) : pydict :=
  if signed then signed_params self (params_or_empty params) w tr
  else params_or_empty params.

Definition trace_at_call (self : BasicBot) (signed : bool) (tr : trace) : trace :=
  if signed then (tr ++ [time_call self])%list else tr.





Definition live_bot : BasicBot := BasicBot_init "key" "secret" TESTNET_BASE false.

(** A response whose body is the JSON text of [v]. *)
Definition json_reply (status : Z) (v : pyval) : response :=
  {| status_code := status; text := json_text v; json := JsonValue v |}.


(** A world in which every HTTP call meets the same response. *)
Definition reply_world (r : response) : world :=
  {| net := fun _ => NetReply r; wall_clock_ms := fun _ => 1700000000000;
     nap := fun _ => None |}.



Definition dry_bot : BasicBot := BasicBot_init "key" "secret" TESTNET_BASE true.

Definition valid_side (side : string) : Prop :=
  upper side = "BUY" \/ upper side = "SELL".

Definition valid_type (order_type : string) : Prop :=
  upper order_type = "MARKET" \/ upper order_type = "LIMIT".

Definition scalar (v : pyval) : bool :=
  match v with VList _ | VDict _ => false | _ => true end.

(** The query string as the text describes it: one [key=value] per item,
    in the order of the items, joined by [&]. *)
Definition query_in_order (params : pydict) : string :=
  join "&" (map (fun kv => quote_plus (fst kv) ++ "=" ++ quote_plus (py_str (snd kv)))
                params).

Definition lower_hex (c : ascii) : bool :=
  let n := N_of_ascii c in
  (((48 <=? n) && (n <=? 57)) || ((97 <=? n) && (n <=? 102)))%N.

Fixpoint all_chars (p : ascii -> bool) (s : string) : bool :=
  match s with
  | EmptyString => true
  | String c rest => p c && all_chars p rest
  end.

(** What one slice leaves in the result list: the response of its market
    order, or the error entry of the exception it raised. *)
Definition slice_entry (self : BasicBot) (symbol side : string) (slice_qty : float)
    (w : world) (tr : trace) : pyval :=
  match fst (place_market_order self symbol side slice_qty false None w tr) with
  | Return resp => resp
  | Raise e => error_entry e
  end.

(** The trace after one turn of the loop: the events of the market order,
    then the sleep if the turn is not the last and the interval is positive. *)
Definition slice_trace (self : BasicBot) (symbol side : string) (slice_qty : float)
    (interval : float) (slices : Z) (w : world) (i : Z) (tr : trace) : trace :=
  let tr1 := snd (place_market_order self symbol side slice_qty false None w tr) in
  if (i <? slices - 1) && float_is_pos interval
  then (tr1 ++ [EvSleep (VFloat interval)])%list else tr1.

(** The trace before slice number [k] (counted from 0) of a run started
    in [tr]: [k] turns have been made. *)
Definition trace_before_slice (self : BasicBot) (symbol side : string)
    (slice_qty interval : float) (slices : Z) (w : world) (tr : trace) (k : nat)
    : trace :=
  fold_left (fun t i => slice_trace self symbol side slice_qty interval slices w i t)
            (range (Z.of_nat k)) tr.

(** A pause of [interval] seconds can be taken: [time.sleep] accepts the
    interval, and the system call behind it does not fail whenever the run
    makes it. *)
Definition can_pause (w : world) (interval : float) : Prop :=
  sleep_error (VFloat interval) = None /\ forall n, nap w n = None.

(** The pauses of a run are granted: it asks for none (a single slice, or
    an interval that is not positive), or they can be taken. *)
Definition pauses_granted (w : world) (slices : Z) (interval : float) : Prop :=
  slices = 1 \/ float_is_pos interval = false \/ can_pause w interval.

(** The entries the turns over [xs] add to the result list. *)
Fixpoint loop_entries (self : BasicBot) (symbol side : string)
    (slice_qty interval : float) (slices : Z) (w : world)
    (xs : list Z) (tr : trace) : list pyval :=
  match xs with
  | [] => []
  | i :: rest =>
      slice_entry self symbol side slice_qty w tr
        :: loop_entries self symbol side slice_qty interval slices w rest
             (slice_trace self symbol side slice_qty interval slices w i tr)
  end.





(** C3 as the claim states it, for the first slice: when its submission
    fails, the run still goes through all its slices and returns one entry
    per slice, the error entry first. *)
Definition C3_as_stated : Prop :=
  forall (self : BasicBot) symbol side quantity slices duration slice_qty w tr e tr1,
    1 <= slices -> 0 <= duration ->
    float_div_int quantity slices = Return slice_qty ->
    place_market_order self symbol side slice_qty false None w tr = (Raise e, tr1) ->
    exists results tr',
      place_twap_order self symbol side quantity slices duration w tr =
        (Return results, tr')
      /\ List.length results = Z.to_nat slices
      /\ nth_error results 0 = Some (error_entry e).

(** The parameters [place_market_order] builds. *)
Definition market_params (symbol side : string) (quantity : float) : pydict :=
  [("symbol", VStr (upper symbol)); ("side", VStr (upper side));
   ("type", VStr "MARKET"); ("quantity", VFloat quantity);
   ("reduceOnly", VStr "false"); ("closePosition", VStr "false")].


(** The quantities of the POST calls of a trace, in the order of the calls. *)
Definition posted_quantities (tr : trace) : list (option pyval) :=
  flat_map (fun ev =>
              match ev with
              | EvHttp POST _ (Some p) _ => [dict_get p "quantity"]
              | _ => []
              end) tr.



(** A world whose time endpoint answers and whose fourth HTTP call, the
    order call of the second slice, fails in transport. *)
Definition flaky_world : world :=
  {| net := fun n =>
       if Nat.eqb n 3 then NetRaise "connection reset"
       else NetReply (json_reply 200 (VDict [("serverTime", VInt 1700000000000);
                                             ("orderId", VInt 7)]));
     wall_clock_ms := fun _ => 1700000000000;
     nap := fun _ => None |}.

(** A world whose every call is answered with the server time, and whose
    local clock is a second behind. *)
Definition synced_world : world :=
  {| net := fun _ => NetReply (json_reply 200 (VDict [("serverTime", VInt 1700000000000)]));
     wall_clock_ms := fun _ => 1699999999000;
     nap := fun _ => None |}.

(** * The command line: [parse_args] and [main] *)

(** The namespace [parse_args] returns, one field per option. *)
Record Args : Type :=
  { arg_api_key : string;
    arg_api_secret : string;
    arg_symbol : string;
    arg_side : string;
    arg_type : string;
    arg_quantity : float;
    arg_price : option float;
    arg_time_in_force : string;
    arg_dry_run : bool;
    arg_twap_slices : Z;
    arg_twap_duration : Z }.



(** How [main] ends: it returns, or [sys.exit(code)] ends the process. *)
Inductive ending : Type :=
| Returned
| Exited (code : Z).

(** What a run of [main] shows: how it ended and the lines it printed. *)
Record shown : Type := { ended : ending; printed : list string }.

(** [for idx, r in enumerate(res, idx): print(f" Slice {idx}: {r}")] *)
Fixpoint slice_lines (idx : Z) (res : list pyval) : list string :=
  match res with
  | [] => []
  | r :: rest =>
      (" Slice " ++ str_of_int idx ++ ": " ++ py_str r) :: slice_lines (idx + 1) rest
  end.

(** The two [except] clauses of [main]. *)
Definition except_clauses (e : exn) : shown :=
  match exn_class_of e with
  | BinanceAPIError =>
      {| ended := Exited 1; printed := ["Error: " ++ exn_text e] |}
  | _ =>
      {| ended := Exited 1; printed := ["Unhandled error: " ++ exn_text e] |}
  end.

(** [main], from the parsed arguments on.  [sys.exit] raises [SystemExit],
    which is no [Exception]: the [except] clauses let it through.  [print]
    writes to a standard output that takes every string (UTF-8), so that it
    does not raise. *)
Definition main (args : Args) (w : world) (tr : trace) : shown * trace :=
  let order_type := upper (arg_type args) in
  let side := upper (arg_side args) in
  let symbol := upper (arg_symbol args) in
  let price := arg_price args in
  let quantity := arg_quantity args in
  let bot := BasicBot_init (arg_api_key args) (arg_api_secret args) TESTNET_BASE
               (arg_dry_run args) in
  if String.eqb order_type "MARKET" then
    match place_market_order bot symbol side quantity false None w tr with
    | (Return res, tr') =>
        ({| ended := Returned; printed := ["Result: " ++ py_str res] |}, tr')
    | (Raise e, tr') => (except_clauses e, tr')
    end
  else if String.eqb order_type "LIMIT" then
    match price with
    | None => ({| ended := Exited 2; printed := [] |}, tr)
    | Some price =>
        match place_limit_order bot symbol side quantity price
                (arg_time_in_force args) false None w tr with
        | (Return res, tr') =>
            ({| ended := Returned; printed := ["Result: " ++ py_str res] |}, tr')
        | (Raise e, tr') => (except_clauses e, tr')
        end
    end
  else if String.eqb order_type "TWAP" then
    let slices := arg_twap_slices args in
    let duration := arg_twap_duration args in
    match place_twap_order bot symbol side quantity slices duration w tr with
    | (Return res, tr') =>
        ({| ended := Returned; printed := "TWAP results:" :: slice_lines 1 res |}, tr')
    | (Raise e, tr') => (except_clauses e, tr')
    end
  else ({| ended := Exited 2; printed := [] |}, tr).

(** The call [main] places for its arguments raises [e] and leaves the
    trace [tr']. *)
Definition order_raises (args : Args) (w : world) (tr : trace) (e : exn) (tr' : trace)
    : Prop :=
  let bot := BasicBot_init (arg_api_key args) (arg_api_secret args) TESTNET_BASE
               (arg_dry_run args) in
  let symbol := upper (arg_symbol args) in
  let side := upper (arg_side args) in
  (upper (arg_type args) = "MARKET"
   /\ place_market_order bot symbol side (arg_quantity args) false None w tr
      = (Raise e, tr'))
  \/ (upper (arg_type args) = "LIMIT"
      /\ exists price,
           arg_price args = Some price
           /\ place_limit_order bot symbol side (arg_quantity args) price
                (arg_time_in_force args) false None w tr = (Raise e, tr'))
  \/ (upper (arg_type args) = "TWAP"
      /\ place_twap_order bot symbol side (arg_quantity args) (arg_twap_slices args)
           (arg_twap_duration args) w tr = (Raise e, tr')).

(** The call [main] places for its arguments returns, [main] prints
    [lines] for what it returns, and the trace is [tr']. *)
Definition order_returns (args : Args) (w : world) (tr : trace) (lines : list string)
    (tr' : trace) : Prop :=
  let bot := BasicBot_init (arg_api_key args) (arg_api_secret args) TESTNET_BASE
               (arg_dry_run args) in
  let symbol := upper (arg_symbol args) in
  let side := upper (arg_side args) in
  (upper (arg_type args) = "MARKET"
   /\ exists res,
        place_market_order bot symbol side (arg_quantity args) false None w tr
          = (Return res, tr')
        /\ lines = ["Result: " ++ py_str res])
  \/ (upper (arg_type args) = "LIMIT"
      /\ exists price res,
           arg_price args = Some price
           /\ place_limit_order bot symbol side (arg_quantity args) price
                (arg_time_in_force args) false None w tr = (Return res, tr')
           /\ lines = ["Result: " ++ py_str res])
  \/ (upper (arg_type args) = "TWAP"
      /\ exists res,
           place_twap_order bot symbol side (arg_quantity args) (arg_twap_slices args)
             (arg_twap_duration args) w tr = (Return res, tr')
           /\ lines = "TWAP results:" :: slice_lines 1 res).

(** [main] places no order: a LIMIT order lacks its price, or the type is
    none of the three [main] knows. *)
Definition no_order (args : Args) : Prop :=
  (upper (arg_type args) = "LIMIT" /\ arg_price args = None)
  \/ (upper (arg_type args) <> "MARKET" /\ upper (arg_type args) <> "LIMIT"
      /\ upper (arg_type args) <> "TWAP").

(** * More vocabulary *)

(** Whether a string ends with a slash. *)
Fixpoint ends_with_slash (s : string) : bool :=
  match s with
  | EmptyString => false
  | String c EmptyString => Ascii.eqb c "/"
  | String _ rest => ends_with_slash rest
  end.

(** A run of [n] slashes. *)
Fixpoint slashes (n : nat) : string :=
  match n with
  | O => EmptyString
  | S n' => String "/" (slashes n')
  end.

(** Whether a dictionary has a key. *)
Definition has_key (d : pydict) (k : string) : bool :=
  match dict_get d k with Some _ => true | None => false end.

(** The sleeps of a trace. *)
Definition sleeps (tr : trace) : list event :=
  filter (fun ev => negb (is_http ev)) tr.



(** The fields of an order, in the order [place_order] inserts them. *)
Definition order_fields (symbol side order_type : string) (quantity : float)
    (price : option float) (time_in_force : string)
    (reduce_only close_position : bool) (position_side : option string) : pydict :=
  ([("symbol", VStr (upper symbol)); ("side", VStr (upper side));
    ("type", VStr (upper order_type)); ("quantity", VFloat quantity);
    ("reduceOnly", VStr (bool_lower reduce_only));
    ("closePosition", VStr (bool_lower close_position))]
   ++ match position_side with
      | Some ps => if String.eqb ps EmptyString then [] else [("positionSide", VStr ps)]
      | None => []
      end
   ++ match price with
      | Some p =>
          if String.eqb (upper order_type) "LIMIT"
          then [("price", VStr (float_repr p)); ("timeInForce", VStr time_in_force)]
          else []
      | None => []
      end)%list.


(** The events a bot can cause: the GET of the time endpoint, the POST of
    an order, a sleep. *)
Definition bot_event (self : BasicBot) (ev : event) : Prop :=
  match ev with
  | EvHttp v url params timeout =>
      (v = GET /\ url = base_url self ++ "/fapi/v1/time" /\ params = None /\ timeout = 5)
      \/ (v = POST /\ url = base_url self ++ ORDER_PATH /\ timeout = 10
          /\ exists full, params = Some full)
  | EvSleep _ => True
  end.

Definition sample_args (order_type : string) (price : option float) : Args :=
  {| arg_api_key := "key"; arg_api_secret := "secret"; arg_symbol := "btcusdt";
     arg_side := "buy"; arg_type := order_type; arg_quantity := 0.001%float;
     arg_price := price; arg_time_in_force := "GTC"; arg_dry_run := false;
     arg_twap_slices := 5; arg_twap_duration := 60 |}.

(** * Properties *)

(** ** Dictionaries *)

Lemma dict_get_set_same (d : pydict) (k : string) (v : pyval) :
  dict_get (dict_set d k v) k = Some v.
Proof.
  induction d as [|[k' v'] d IH]; simpl.
  - now rewrite String.eqb_refl.
  - destruct (String.eqb k' k) eqn:E; simpl; rewrite E; auto.
Qed.

Lemma dict_get_set_other (d : pydict) (k k' : string) (v : pyval) :
  k <> k' -> dict_get (dict_set d k v) k' = dict_get d k'.
Proof.
  intros Hne. induction d as [|[k0 v0] d IH]; simpl.
  - destruct (String.eqb k k') eqn:E; auto.
    apply String.eqb_eq in E. contradiction.
  - destruct (String.eqb k0 k) eqn:E; simpl.
    + apply String.eqb_eq in E. subst k0.
      destruct (String.eqb k k') eqn:E'; auto.
      apply String.eqb_eq in E'. contradiction.
    + destruct (String.eqb k0 k'); auto.
Qed.

(** ** The clock synchroniser *)

Lemma length_snoc {A} (l : list A) (x : A) :
  List.length (l ++ [x])%list = S (List.length l).
Proof. rewrite length_app. simpl. lia. Qed.

Lemma timestamped_params_run (self : BasicBot) (extra : pydict) (w : world) (tr : trace) :
  _timestamped_params self extra w tr =
    (Return (dict_set (dict_set extra "timestamp" (stamp_of w tr))
               "recvWindow" (VInt RECV_WINDOW)),
     (tr ++ [time_call self])%list).
Proof.
  unfold _timestamped_params, get_server_time, stamp_of, fallback_ms,
    try_except, bind, session_call, local_time_ms, time_call.
  destruct (net w (List.length (http_calls tr))) as [msg|r]; simpl.
  - rewrite length_snoc. reflexivity.
  - unfold resp_json. destruct (json r) as [data|msg]; simpl.
    + destruct data as [| b | z | f | s | l | d]; simpl;
        try (rewrite length_snoc; reflexivity).
      destruct (dict_get d "serverTime") as [st|]; simpl;
        [|rewrite length_snoc; reflexivity].
      destruct st as [| b | z | f | s | l | d']; simpl;
        try reflexivity; try (rewrite length_snoc; reflexivity).
    + rewrite length_snoc. reflexivity.
Qed.

(** ** The dispatcher *)

(** [request] is its three steps in a row. *)
Lemma request_steps (self : BasicBot) (method path : string)
    (params : option pydict) (signed : bool) :
  request self method path params signed =
    try_except
      (full_params <- prepare self (params_or_empty params) signed ;;
       send self method (base_url self ++ path) full_params)
      (fun e => throw e).
Proof. reflexivity. Qed.

Lemma prepare_run (self : BasicBot) (params : option pydict) (signed : bool)
    (w : world) (tr : trace) :
  prepare self (params_or_empty params) signed w tr =
    (Return (full_params_of self params signed w tr), trace_at_call self signed tr).
Proof.
  unfold prepare, full_params_of, trace_at_call. destruct signed; [|reflexivity].
  unfold bind. rewrite timestamped_params_run. reflexivity.
Qed.

Lemma request_run (self : BasicBot) (method path : string)
    (params : option pydict) (signed : bool) (w : world) (tr : trace) :
  request self method path params signed w tr =
    send self method (base_url self ++ path)
      (full_params_of self params signed w tr) w (trace_at_call self signed tr).
Proof.
  rewrite request_steps. unfold try_except, bind. rewrite prepare_run.
  destruct (send self method (base_url self ++ path)
              (full_params_of self params signed w tr) w
              (trace_at_call self signed tr)) as [[v|e] tr']; reflexivity.
Qed.

Lemma request_dry_run (self : BasicBot) (method path : string)
    (params : option pydict) (signed : bool) (w : world) (tr : trace) :
  dry_run self = true ->
  request self method path params signed w tr =
    if signed then
      (Return (dry_run_echo method (base_url self ++ path)
                 (signed_params self (params_or_empty params) w tr)),
       (tr ++ [time_call self])%list)
    else
      (Return (dry_run_echo method (base_url self ++ path) (params_or_empty params)), tr).
Proof.
  intros Hdry. rewrite request_run. unfold send. rewrite Hdry.
  destruct signed; reflexivity.
Qed.

(** ** Dry run *)




(** ** Time stamping *)

(** C5: stamping never raises and always attaches recvWindow = 15000.  When
    the time endpoint answers with a JSON object holding an integer
    [serverTime], the timestamp is [serverTime + 500]; when the call raises,
    the body is not JSON, or it holds no numeric [serverTime], the timestamp
    is the local clock in milliseconds. *)
Theorem C5_timestamp_server_time_or_local_fallback
    (self : BasicBot) (extra : pydict) (w : world) (tr : trace) :
  exists p,
    _timestamped_params self extra w tr = (Return p, (tr ++ [time_call self])%list)
    /\ dict_get p "recvWindow" = Some (VInt 15000)
    /\ (forall r d t,
          net w (List.length (http_calls tr)) = NetReply r ->
          json r = JsonValue (VDict d) ->
          dict_get d "serverTime" = Some (VInt t) ->
          dict_get p "timestamp" = Some (VInt (t + 500)))
    /\ (forall msg,
          net w (List.length (http_calls tr)) = NetRaise msg ->
          dict_get p "timestamp" = Some (VInt (fallback_ms w tr)))
    /\ (forall r msg,
          net w (List.length (http_calls tr)) = NetReply r ->
          json r = JsonError msg ->
          dict_get p "timestamp" = Some (VInt (fallback_ms w tr)))
    /\ (forall r data,
          net w (List.length (http_calls tr)) = NetReply r ->
          json r = JsonValue data ->
          (forall d t, data = VDict d -> dict_get d "serverTime" = Some t ->
                       numeric t = false) ->
          dict_get p "timestamp" = Some (VInt (fallback_ms w tr))).
Proof.
  eexists. split; [apply timestamped_params_run|].
  assert (Hts : forall v,
            stamp_of w tr = v ->
            dict_get (dict_set (dict_set extra "timestamp" (stamp_of w tr))
                        "recvWindow" (VInt RECV_WINDOW)) "timestamp" = Some v).
  { intros v <-. rewrite dict_get_set_other by discriminate.
    apply dict_get_set_same. }
  split; [apply dict_get_set_same|].
  split; [|split; [|split]].
  - intros r d t Hnet Hjson Hget. apply Hts.
    unfold stamp_of. rewrite Hnet, Hjson. simpl. rewrite Hget. reflexivity.
  - intros msg Hnet. apply Hts. unfold stamp_of. now rewrite Hnet.
  - intros r msg Hnet Hjson. apply Hts. unfold stamp_of. now rewrite Hnet, Hjson.
  - intros r data Hnet Hjson Hbad. apply Hts.
    unfold stamp_of. rewrite Hnet, Hjson.
    destruct data as [| b | z | f | s | l | d]; simpl; try reflexivity.
    destruct (dict_get d "serverTime") as [t|] eqn:Hget; simpl; [|reflexivity].
    specialize (Hbad d t eq_refl Hget).
    destruct t; simpl in *; try discriminate; reflexivity.
Qed.

Lemma C5_witness :
  (exists p,
     _timestamped_params live_bot [("symbol", VStr "BTCUSDT")] synced_world [] =
       (Return p, [time_call live_bot])
     /\ dict_get p "timestamp" = Some (VInt 1700000000500))
  /\ (exists p,
        _timestamped_params live_bot [("symbol", VStr "BTCUSDT")] demo_world [] =
          (Return p, [time_call live_bot])
        /\ dict_get p "timestamp" = Some (VInt 1700000000000)).
Proof.
  split.
  - destruct (C5_timestamp_server_time_or_local_fallback live_bot
                [("symbol", VStr "BTCUSDT")] synced_world [])
      as (p & Hrun & _ & Hserver & _).
    exists p. split; [exact Hrun|].
    exact (Hserver _ [("serverTime", VInt 1700000000000)] 1700000000000
             eq_refl eq_refl eq_refl).
  - destruct (C5_timestamp_server_time_or_local_fallback live_bot
                [("symbol", VStr "BTCUSDT")] demo_world [])
      as (p & Hrun & _ & _ & Hraise & _).
    exists p. split; [exact Hrun|].
    exact (Hraise "connection refused" eq_refl).
Defined.

(** ** Executed requests *)

Lemma pure_ret {A} (a : A) : pure (ret a).
Proof. intros w tr. reflexivity. Qed.

Lemma pure_raise {A} (c : exn_class) (msg : string) : pure (@raise A c msg).
Proof. intros w tr. reflexivity. Qed.

Lemma pure_lift {A} (o : outcome A) : pure (lift o).
Proof. intros w tr. reflexivity. Qed.

Lemma pure_bind {A B} (m : M A) (k : A -> M B) :
  pure m -> (forall a, pure (k a)) -> pure (bind m k).
Proof.
  intros Hm Hk w tr. unfold bind.
  rewrite (Hm w tr), (Hm w []).
  destruct (fst (m w [])) as [a|e]; [apply Hk | reflexivity].
Qed.

Lemma pure_if {A} (b : bool) (m1 m2 : M A) :
  pure m1 -> pure m2 -> pure (if b then m1 else m2).
Proof. destruct b; auto. Qed.

Create HintDb pure_db.
#[local] Hint Resolve pure_ret pure_raise pure_lift pure_bind pure_if : pure_db.

Lemma pure_resp_json (r : response) : pure (resp_json r).
Proof. unfold resp_json. destruct (json r); auto with pure_db. Qed.

Lemma pure_method_get (j : pyval) (k : string) : pure (method_get j k).
Proof. destruct j; simpl; auto with pure_db. Qed.

Lemma pure_lt_zero (v : pyval) : pure (lt_zero v).
Proof. destruct v; simpl; auto with pure_db. Qed.

Lemma pure_gt_zero (v : pyval) : pure (gt_zero v).
Proof. destruct v; simpl; auto with pure_db. Qed.

#[local] Hint Resolve pure_resp_json pure_method_get pure_lt_zero pure_gt_zero : pure_db.

(** Classification touches neither the network nor the clock. *)
Lemma classify_pure (resp : response) : pure (classify resp).
Proof.
  unfold classify.
  apply pure_bind; [auto with pure_db|]. intros j.
  apply pure_bind; [auto 6 with pure_db|]. intros _.
  apply pure_bind; [|intros b; auto with pure_db].
  destruct j; auto with pure_db.
Qed.

Lemma dispatch_run (method url : string) (full : pydict) (w : world) (tr : trace) :
  dispatch method url full w tr =
    match verb_of method with
    | None => (Raise (Raised ValueError ("Unsupported method: " ++ method)), tr)
    | Some v =>
        let tr' := (tr ++ [EvHttp v url (Some full) 10])%list in
        match net w (List.length (http_calls tr)) with
        | NetRaise msg => (Raise (Raised RequestException msg), tr')
        | NetReply r => (Return r, tr')
        end
    end.
Proof.
  unfold dispatch, verb_of.
  destruct (String.eqb (upper method) "GET");
    [|destruct (String.eqb (upper method) "POST");
      [|destruct (String.eqb (upper method) "DELETE")]];
    try reflexivity;
    unfold session_call; cbv zeta;
    destruct (net w (List.length (http_calls tr))); reflexivity.
Qed.

Lemma request_live (self : BasicBot) (method path : string)
    (params : option pydict) (signed : bool) (w : world) (tr : trace) :
  dry_run self = false ->
  request self method path params signed w tr =
    let full := full_params_of self params signed w tr in
    let tr1 := trace_at_call self signed tr in
    match verb_of method with
    | None => (Raise (Raised ValueError ("Unsupported method: " ++ method)), tr1)
    | Some v =>
        let tr2 := (tr1 ++ [EvHttp v (base_url self ++ path) (Some full) 10])%list in
        match net w (List.length (http_calls tr1)) with
        | NetRaise msg => (Raise (Raised RequestException msg), tr2)
        | NetReply r => (fst (classify r w []), tr2)
        end
    end.
Proof.
  intros Hlive. rewrite request_run. unfold send. rewrite Hlive.
  unfold bind. rewrite dispatch_run. cbv zeta.
  destruct (verb_of method); [|reflexivity].
  destruct (net w _); [reflexivity|].
  apply classify_pure.
Qed.







(** ** Unsupported methods *)




(** ** The order builder *)

Lemma valid_side_dec (side : string) :
  (String.eqb (upper side) "BUY" || String.eqb (upper side) "SELL") = true
  <-> valid_side side.
Proof.
  unfold valid_side. rewrite orb_true_iff, !String.eqb_eq. reflexivity.
Qed.

Lemma valid_type_dec (order_type : string) :
  (String.eqb (upper order_type) "MARKET" || String.eqb (upper order_type) "LIMIT") = true
  <-> valid_type order_type.
Proof.
  unfold valid_type. rewrite orb_true_iff, !String.eqb_eq. reflexivity.
Qed.

(** C6: the builder raises exactly when, on the upper-cased arguments, the
    side is neither BUY nor SELL, or the type is neither MARKET nor LIMIT,
    or the type is LIMIT and no price is given, and what it raises is a
    [ValueError]; a LIMIT order with a price (and a valid side) is built,
    with price = str(price) and the given timeInForce.  When the builder
    raises, [place_order] raises the same error and the trace is untouched. *)
Theorem C6_order_validation
    (symbol side order_type : string) (quantity : float) (price : option float)
    (time_in_force : string) (reduce_only close_position : bool)
    (position_side : option string) :
  let built := order_params symbol side order_type quantity price time_in_force
                 reduce_only close_position position_side in
  ((exists e, built = Raise e) <->
     (~ valid_side side \/ ~ valid_type order_type
      \/ (upper order_type = "LIMIT" /\ price = None)))
  /\ (forall e, built = Raise e -> exn_class_of e = ValueError)
  /\ (forall x, valid_side side -> upper order_type = "LIMIT" -> price = Some x ->
        exists params,
          built = Return params
          /\ dict_get params "price" = Some (VStr (float_repr x))
          /\ dict_get params "timeInForce" = Some (VStr time_in_force))
  /\ (forall self w tr e, built = Raise e ->
        place_order self symbol side order_type quantity price time_in_force
          reduce_only close_position position_side w tr = (Raise e, tr)).
Proof.
  intros built.
  assert (Hplace : forall self w tr e, built = Raise e ->
            place_order self symbol side order_type quantity price time_in_force
              reduce_only close_position position_side w tr = (Raise e, tr)).
  { intros self w tr e He. unfold place_order, bind, lift. fold built.
    rewrite He. reflexivity. }
  cut (((exists e, built = Raise e) <->
          (~ valid_side side \/ ~ valid_type order_type
           \/ (upper order_type = "LIMIT" /\ price = None)))
       /\ (forall e, built = Raise e -> exn_class_of e = ValueError)
       /\ (forall x, valid_side side -> upper order_type = "LIMIT" -> price = Some x ->
             exists params,
               built = Return params
               /\ dict_get params "price" = Some (VStr (float_repr x))
               /\ dict_get params "timeInForce" = Some (VStr time_in_force))).
  { intros (H1 & H2 & H3). auto. }
  clear Hplace.
  subst built. unfold order_params.
  pose proof (valid_side_dec side) as Hs.
  pose proof (valid_type_dec order_type) as Ht.
  destruct (String.eqb (upper side) "BUY" || String.eqb (upper side) "SELL") eqn:Es;
    cbn [negb].
  2:{ assert (Hns : ~ valid_side side) by (intros H; apply Hs in H; discriminate).
      split; [|split].
      - split; [auto | intros _; eauto].
      - intros e [= <-]. reflexivity.
      - intros x Hv. contradiction. }
  assert (Hvs : valid_side side) by (apply Hs; reflexivity).
  destruct (String.eqb (upper order_type) "MARKET" || String.eqb (upper order_type) "LIMIT")
    eqn:Et; cbn [negb].
  2:{ assert (Hnt : ~ valid_type order_type) by (intros H; apply Ht in H; discriminate).
      split; [|split].
      - split; [auto | intros _; eauto].
      - intros e [= <-]. reflexivity.
      - intros x _ Hl. exfalso. apply Hnt. right. exact Hl. }
  assert (Hvt : valid_type order_type) by (apply Ht; reflexivity).
  destruct (String.eqb_spec (upper order_type) "LIMIT") as [El|El].
  - destruct price as [x|].
    + split; [|split].
      * split; [intros [e He]; discriminate|].
        intros [H|[H|[_ H]]]; [contradiction | contradiction | discriminate].
      * intros e He. discriminate.
      * intros x' _ _ [= <-]. eexists. split; [reflexivity|]. split.
        -- rewrite dict_get_set_other by discriminate. apply dict_get_set_same.
        -- apply dict_get_set_same.
    + split; [|split].
      * split; [intros _; right; right; auto | intros _; eauto].
      * intros e [= <-]. reflexivity.
      * intros x _ _ Hp. discriminate.
  - split; [|split].
    + split; [intros [e He]; discriminate|].
      intros [H|[H|[H _]]]; contradiction.
    + intros e He. discriminate.
    + intros x _ Hl. contradiction.
Qed.

Lemma C6_witness :
  exists params,
    order_params "btcusdt" "sell" "limit" 0.001%float (Some 62000%float) "IOC"
      false false None = Return params
    /\ dict_get params "price" = Some (VStr (float_repr 62000%float))
    /\ dict_get params "timeInForce" = Some (VStr "IOC").
Proof.
  apply (proj1 (proj2 (proj2 (C6_order_validation "btcusdt" "sell" "limit" 0.001%float
                                (Some 62000%float) "IOC" false false None)))).
  - right. reflexivity.
  - reflexivity.
  - reflexivity.
Defined.

(** ** The signer *)

Lemma urlencode_scalars (params : pydict) :
  forallb (fun kv => scalar (snd kv)) params = true ->
  urlencode params = query_in_order params.
Proof.
  unfold urlencode, query_in_order. intros H. f_equal.
  induction params as [|[k v] rest IH]; [reflexivity|].
  simpl in H. apply andb_true_iff in H as [Hv Hrest].
  simpl. rewrite (IH Hrest).
  destruct v; simpl in *; try discriminate; reflexivity.
Qed.

Lemma hex_digit_lower (d : Z) : 0 <= d < 16 -> lower_hex (hex_digit d) = true.
Proof.
  intros H.
  assert (Hd : d = 0 \/ d = 1 \/ d = 2 \/ d = 3 \/ d = 4 \/ d = 5 \/ d = 6 \/ d = 7
               \/ d = 8 \/ d = 9 \/ d = 10 \/ d = 11 \/ d = 12 \/ d = 13 \/ d = 14
               \/ d = 15) by lia.
  repeat (destruct Hd as [->|Hd]; [reflexivity|]). subst d. reflexivity.
Qed.

Lemma hex_of_bytes_shape (bs : list Z) :
  Forall (fun b => 0 <= b < 256) bs ->
  String.length (hex_of_bytes bs) = (2 * List.length bs)%nat
  /\ all_chars lower_hex (hex_of_bytes bs) = true.
Proof.
  induction 1 as [|b bs Hb Hbs [IHlen IHall]]; [split; reflexivity|].
  split.
  - cbn [hex_of_bytes String.length List.length]. rewrite IHlen. lia.
  - cbn [hex_of_bytes all_chars]. rewrite IHall.
    rewrite !hex_digit_lower; [reflexivity| |].
    + apply Z.mod_pos_bound. lia.
    + split; [apply Z.div_pos; lia | apply Z.div_lt_upper_bound; lia].
Qed.

Module SHA256Facts.
Import SHA256.

Lemma round_length (st : list Z) (kw : Z * Z) :
  List.length st = 8%nat -> List.length (round st kw) = 8%nat.
Proof.
  intros H.
  do 8 (destruct st as [|? st]; [discriminate|]).
  destruct st; [reflexivity | discriminate].
Qed.

Lemma rounds_length (kws : list (Z * Z)) (st : list Z) :
  List.length st = 8%nat -> List.length (fold_left round kws st) = 8%nat.
Proof.
  revert st. induction kws as [|kw kws IH]; intros st H; simpl; auto.
  apply IH. now apply round_length.
Qed.

Lemma compress_length (h block : list Z) :
  List.length h = 8%nat -> List.length (compress h block) = 8%nat.
Proof.
  intros H. unfold compress.
  rewrite length_map, length_combine, rounds_length by assumption.
  rewrite H. reflexivity.
Qed.

Lemma compress_all_length (bl : list (list Z)) (h : list Z) :
  List.length h = 8%nat -> List.length (fold_left compress bl h) = 8%nat.
Proof.
  revert h. induction bl as [|b bl IH]; intros h H; simpl; auto.
  apply IH. now apply compress_length.
Qed.

Lemma be_bytes_length (n : nat) (x : Z) : List.length (be_bytes n x) = n.
Proof.
  revert x. induction n as [|n IH]; intros x; simpl; [reflexivity|].
  rewrite length_app, IH. simpl. lia.
Qed.

Lemma be_bytes_range (n : nat) (x : Z) :
  Forall (fun b => 0 <= b < 256) (be_bytes n x).
Proof.
  revert x. induction n as [|n IH]; intros x; simpl; [constructor|].
  apply Forall_app. split; [apply IH|].
  constructor; [apply Z.mod_pos_bound; lia | constructor].
Qed.

Lemma words_bytes (ws : list Z) :
  List.length (flat_map (be_bytes 4) ws) = (4 * List.length ws)%nat
  /\ Forall (fun b => 0 <= b < 256) (flat_map (be_bytes 4) ws).
Proof.
  induction ws as [|x ws [IHlen IHall]]; [split; [reflexivity | constructor]|].
  split.
  - cbn [flat_map]. rewrite length_app, be_bytes_length, IHlen. simpl. lia.
  - cbn [flat_map]. apply Forall_app. split; [apply be_bytes_range | exact IHall].
Qed.

Lemma digest_shape (msg : list Z) :
  List.length (digest msg) = 32%nat
  /\ Forall (fun b => 0 <= b < 256) (digest msg).
Proof.
  unfold digest. cbv zeta.
  destruct (words_bytes (fold_left compress (blocks (List.length (pad msg)) (pad msg)) H0))
    as [Hlen Hall].
  split; [|exact Hall].
  rewrite Hlen, compress_all_length; reflexivity.
Qed.

Lemma hmac_shape (key msg : list Z) :
  List.length (hmac key msg) = 32%nat
  /\ Forall (fun b => 0 <= b < 256) (hmac key msg).
Proof. unfold hmac. cbv zeta. apply digest_shape. Qed.

End SHA256Facts.

(** C4: the signature is the lowercase hexadecimal digest (64 digits) of
    HMAC-SHA256, keyed by the secret, over the URL-encoded query string; for
    scalar values the query string is one [key=value] per item in insertion
    order; the signature depends on the secret and the ordered parameters
    only, so signing twice gives the same output; and two parameter sets
    that differ by the order of their fields only can have different
    signatures. *)
Theorem C4_signature_is_hmac_of_ordered_query :
  (forall self params,
     _sign self params =
       hex_of_bytes (SHA256.hmac (bytes_of_string (api_secret self))
                       (bytes_of_string (urlencode params))))
  /\ (forall params,
        forallb (fun kv => scalar (snd kv)) params = true ->
        urlencode params = query_in_order params)
  /\ (forall self params,
        String.length (_sign self params) = 64%nat
        /\ all_chars lower_hex (_sign self params) = true)
  /\ (forall self1 self2 params1 params2,
        api_secret self1 = api_secret self2 -> params1 = params2 ->
        _sign self1 params1 = _sign self2 params2)
  /\ (exists self params1 params2,
        Permutation params1 params2 /\ _sign self params1 <> _sign self params2).
Proof.
  split; [reflexivity|].
  split; [exact urlencode_scalars|].
  split.
  { intros self params. unfold _sign, hmac_sha256_hexdigest. cbv zeta.
    destruct (SHA256Facts.hmac_shape (bytes_of_string (api_secret self))
                (bytes_of_string (urlencode params))) as [Hlen Hall].
    destruct (hex_of_bytes_shape _ Hall) as [Hl Hc].
    rewrite Hl, Hlen. split; [reflexivity | exact Hc]. }
  split.
  { intros self1 self2 params1 params2 Hs ->. unfold _sign. now rewrite Hs. }
  exists live_bot,
    [("symbol", VStr "BTCUSDT"); ("side", VStr "BUY")],
    [("side", VStr "BUY"); ("symbol", VStr "BTCUSDT")].
  split; [apply perm_swap|].
  vm_compute. discriminate.
Qed.

Lemma C4_witness :
  urlencode [("symbol", VStr "BTCUSDT"); ("quantity", VFloat 0.001%float);
             ("recvWindow", VInt 15000)] =
    "symbol=BTCUSDT&quantity=0.001&recvWindow=15000".
Proof.
  rewrite (proj1 (proj2 C4_signature_is_hmac_of_ordered_query)
             [("symbol", VStr "BTCUSDT"); ("quantity", VFloat 0.001%float);
              ("recvWindow", VInt 15000)] eq_refl).
  vm_compute. reflexivity.
Defined.

(** ** The TWAP scheduler *)

(** C8: with [slices < 1] or [duration < 0] the run raises [ValueError] at
    once: the trace is the one it started from, no order was placed and
    nothing else was done. *)
Theorem C8_twap_fails_fast
    (self : BasicBot) (symbol side : string) (quantity : float)
    (slices duration : Z) (w : world) (tr : trace) :
  slices < 1 \/ duration < 0 ->
  exists msg,
    place_twap_order self symbol side quantity slices duration w tr =
      (Raise (Raised ValueError msg), tr).
Proof.
  intros H. unfold place_twap_order.
  destruct (Z.ltb_spec slices 1); [eexists; reflexivity|].
  destruct (Z.ltb_spec duration 0); [eexists; reflexivity|].
  lia.
Qed.

Lemma C8_witness :
  exists msg,
    place_twap_order live_bot "ETHUSDT" "SELL" 0.5%float 0 60 demo_world [] =
      (Raise (Raised ValueError msg), []).
Proof.
  apply (C8_twap_fails_fast live_bot "ETHUSDT" "SELL" 0.5%float 0 60 demo_world []).
  left. lia.
Defined.

Lemma sleep_run (w : world) (interval : float) (tr : trace) :
  can_pause w interval ->
  sleep (VFloat interval) w tr = (Return tt, (tr ++ [EvSleep (VFloat interval)])%list).
Proof. intros [Hc Hn]. unfold sleep. now rewrite Hc, Hn. Qed.

Lemma range_bound (n i : Z) : In i (range n) -> 0 <= i < n.
Proof.
  unfold range. intros H. apply in_map_iff in H as (k & <- & Hk).
  apply in_seq in Hk. lia.
Qed.

(** With its pauses granted, a run sleeps wherever it asks to. *)
Lemma pauses_in_range (w : world) (slices : Z) (interval : float) (i : Z) :
  pauses_granted w slices interval ->
  In i (range slices) ->
  (i <? slices - 1) && float_is_pos interval = true ->
  can_pause w interval.
Proof.
  intros [->|[Hz|Hp]] Hin Hgo; [| |exact Hp].
  - apply range_bound in Hin. apply andb_true_iff in Hgo as [Hi _].
    apply Z.ltb_lt in Hi. lia.
  - rewrite Hz, andb_false_r in Hgo. discriminate.
Qed.

Section TwapLoop.

Variables (self : BasicBot) (symbol side : string) (slice_qty interval : float)
  (slices : Z) (w : world).

Let body := twap_slice self symbol side slice_qty (VFloat interval) slices.
Let entry := slice_entry self symbol side slice_qty w.
Let step := fun t i => slice_trace self symbol side slice_qty interval slices w i t.
Let entries := loop_entries self symbol side slice_qty interval slices w.

Lemma twap_slice_run (i : Z) (responses : list pyval) (tr : trace) :
  ((i <? slices - 1) && float_is_pos interval = true -> can_pause w interval) ->
  body i responses w tr = (Return (responses ++ [entry tr])%list, step tr i).
Proof.
  intros Hp.
  unfold body, entry, step, twap_slice, slice_entry, slice_trace, try_except, bind.
  destruct (place_market_order self symbol side slice_qty false None w tr)
    as [[resp|e] tr1]; cbn [fst snd ret];
    destruct (i <? slices - 1); cbn [andb gt_zero ret] in *;
    destruct (float_is_pos interval); try reflexivity;
    rewrite (sleep_run w interval _ (Hp eq_refl)); reflexivity.
Qed.

Lemma for_loop_run (xs : list Z) (responses : list pyval) (tr : trace) :
  (forall i, In i xs -> (i <? slices - 1) && float_is_pos interval = true ->
             can_pause w interval) ->
  for_loop xs body responses w tr =
    (Return (responses ++ entries xs tr)%list, fold_left step xs tr).
Proof.
  revert responses tr. induction xs as [|i rest IH]; intros responses tr Hp.
  - simpl. unfold ret. now rewrite app_nil_r.
  - unfold entries. cbn [for_loop loop_entries fold_left]. unfold bind.
    rewrite twap_slice_run by (apply Hp; now left).
    fold (entries rest (step tr i)).
    rewrite IH by (intros j Hj; apply Hp; now right).
    now rewrite <- app_assoc.
Qed.

Lemma loop_entries_length (xs : list Z) (tr : trace) :
  List.length (entries xs tr) = List.length xs.
Proof.
  unfold entries. revert tr. induction xs as [|i rest IH]; intros tr; simpl; auto.
Qed.

Lemma loop_entries_nth (xs : list Z) (tr : trace) (k : nat) :
  (k < List.length xs)%nat ->
  nth_error (entries xs tr) k = Some (entry (fold_left step (firstn k xs) tr)).
Proof.
  unfold entries. revert tr k.
  induction xs as [|i rest IH]; intros tr k Hk; simpl in Hk; [lia|].
  destruct k as [|k]; [reflexivity|].
  cbn [loop_entries nth_error firstn fold_left]. apply IH. lia.
Qed.

End TwapLoop.

Lemma range_length (n : Z) : List.length (range n) = Z.to_nat n.
Proof. unfold range. now rewrite length_map, length_seq. Qed.

Lemma firstn_seq_le (k n start : nat) :
  (k <= n)%nat -> firstn k (seq start n) = seq start k.
Proof.
  revert n start. induction k as [|k IH]; intros n start Hk; [reflexivity|].
  destruct n as [|n]; [lia|].
  cbn [seq firstn]. f_equal. apply IH. lia.
Qed.

Lemma firstn_range (k : nat) (n : Z) :
  (k <= Z.to_nat n)%nat -> firstn k (range n) = range (Z.of_nat k).
Proof.
  intros Hk. unfold range. rewrite Nat2Z.id, firstn_map.
  now rewrite firstn_seq_le.
Qed.

(** The run of [place_twap_order] once its arguments have passed the checks,
    the two divisions have given the slice quantity and the interval, and
    its pauses are granted. *)
Lemma place_twap_order_run
    (self : BasicBot) (symbol side : string) (quantity : float)
    (slices duration : Z) (slice_qty interval : float) (w : world) (tr : trace) :
  1 <= slices -> 0 <= duration ->
  float_div_int quantity slices = Return slice_qty ->
  int_truediv duration slices = Return interval ->
  pauses_granted w slices interval ->
  place_twap_order self symbol side quantity slices duration w tr =
    (Return (loop_entries self symbol side slice_qty interval slices w (range slices) tr),
     fold_left (fun t i => slice_trace self symbol side slice_qty interval slices w i t)
               (range slices) tr).
Proof.
  intros Hs Hd Hq Hi Hp. unfold place_twap_order.
  destruct (Z.ltb_spec slices 1); [lia|].
  destruct (Z.ltb_spec duration 0); [lia|].
  destruct (Z.ltb_spec 0 slices); [|lia].
  unfold bind at 1. unfold lift at 1. rewrite Hq.
  unfold bind at 1. unfold bind at 1. unfold lift at 1. rewrite Hi.
  unfold ret at 1.
  apply (for_loop_run self symbol side slice_qty interval slices w (range slices) [] tr).
  intros i. now apply pauses_in_range.
Qed.

(** C3 fails as stated.  The sleep between two slices stands outside the
    [try] of the loop, and [time.sleep] raises [OverflowError] for an
    interval of 2^63 nanoseconds or more.  With two slices over 2 * 10^10
    seconds and a network that is down, the first submission fails in
    transport and is caught; then the sleep of 10^10 seconds raises, the run
    ends with that exception, and the second slice is never attempted: the
    trace holds the two calls of the first slice and nothing else. *)
Lemma C3_counterexample :
  fst (place_market_order live_bot "ETHUSDT" "SELL" (0.5 / 2)%float false None
         demo_world []) = Raise (Raised RequestException "connection refused")
  /\ fst (place_twap_order live_bot "ETHUSDT" "SELL" 0.5%float 2 20000000000
            demo_world []) =
       Raise (Raised OverflowError "timestamp too large to convert to C _PyTime_t")
  /\ List.length (snd (place_twap_order live_bot "ETHUSDT" "SELL" 0.5%float 2 20000000000
                         demo_world [])) = 2%nat
  /\ ~ C3_as_stated.
Proof.
  split; [vm_compute; reflexivity|].
  split; [vm_compute; reflexivity|].
  split; [vm_compute; reflexivity|].
  intros H.
  destruct (place_market_order live_bot "ETHUSDT" "SELL" (0.5 / 2)%float false None
              demo_world []) as [o tr1] eqn:Hfirst.
  assert (Ho : o = Raise (Raised RequestException "connection refused")).
  { change o with (fst (o, tr1)). rewrite <- Hfirst. vm_compute. reflexivity. }
  subst o.
  destruct (H live_bot "ETHUSDT" "SELL" 0.5%float 2 20000000000 (0.5 / 2)%float
              demo_world [] _ tr1 ltac:(lia) ltac:(lia) ltac:(vm_compute; reflexivity)
              Hfirst) as (results & tr' & Hrun & _).
  apply (f_equal fst) in Hrun. vm_compute in Hrun. discriminate Hrun.
Qed.

(** C3, amended: a TWAP run of N slices whose pauses are granted returns
    exactly N entries, in submission order, whatever fails in the
    submissions.  The run is one that reaches its loop (the checks pass and
    the two divisions before the loop return the slice quantity and the
    interval; they raise [OverflowError] only beyond the binary64 range),
    and its pauses are granted: there is a single slice, or the interval is
    zero, or [time.sleep] accepts the interval (fewer than 2^63 nanoseconds)
    and the sleep itself does not fail.  Slice [k] is submitted in the state
    the first [k-1] turns have left, whether or not they failed; if its
    submission raises, for any reason, the entry at its position is the
    error entry of that exception, otherwise it is its response; and the
    final trace is the one all N turns have built. *)
Theorem C3_twap_isolates_slice_failures
    (self : BasicBot) (symbol side : string) (quantity : float)
    (slices duration : Z) (slice_qty interval : float) (w : world) (tr : trace) :
  1 <= slices -> 0 <= duration ->
  float_div_int quantity slices = Return slice_qty ->
  int_truediv duration slices = Return interval ->
  pauses_granted w slices interval ->
  exists results tr',
    place_twap_order self symbol side quantity slices duration w tr =
      (Return results, tr')
    /\ List.length results = Z.to_nat slices
    /\ tr' = trace_before_slice self symbol side slice_qty interval slices w tr
               (Z.to_nat slices)
    /\ forall k, (k < Z.to_nat slices)%nat ->
         let before :=
           trace_before_slice self symbol side slice_qty interval slices w tr k in
         match fst (place_market_order self symbol side slice_qty false None w before) with
         | Return resp => nth_error results k = Some resp
         | Raise e => nth_error results k = Some (error_entry e)
         end.
Proof.
  intros Hs Hd Hq Hi Hp. do 2 eexists.
  split; [apply (place_twap_order_run _ _ _ _ _ _ _ _ _ _ Hs Hd Hq Hi Hp)|].
  split; [now rewrite loop_entries_length, range_length|].
  split; [unfold trace_before_slice; now rewrite Z2Nat.id by lia|].
  intros k Hk before.
  rewrite loop_entries_nth by now rewrite range_length.
  rewrite firstn_range by lia.
  fold (trace_before_slice self symbol side slice_qty interval slices w tr k).
  fold before. unfold slice_entry.
  destruct (fst (place_market_order self symbol side slice_qty false None w before));
    reflexivity.
Qed.

Lemma C3_witness :
  exists results tr',
    place_twap_order live_bot "ETHUSDT" "SELL" 0.5%float 3 6 flaky_world [] =
      (Return results, tr')
    /\ List.length results = 3%nat
    /\ nth_error results 1 = Some (VDict [("error", VStr "connection reset")]).
Proof.
  destruct (C3_twap_isolates_slice_failures live_bot "ETHUSDT" "SELL" 0.5%float 3 6
              (0.5 / 3)%float 2%float flaky_world [])
    as (results & tr' & Hrun & Hlen & _ & Hnth).
  - lia.
  - lia.
  - vm_compute. reflexivity.
  - vm_compute. reflexivity.
  - right. right. split; [vm_compute; reflexivity | intros n; reflexivity].
  - exists results, tr'. split; [exact Hrun|]. split; [exact Hlen|].
    assert (H1 : (1 < Z.to_nat 3)%nat) by (vm_compute; lia).
    exact (Hnth 1%nat H1).
Defined.






Section TwapQuantities.

Variables (self : BasicBot) (symbol side : string) (slice_qty interval : float)
  (slices : Z) (w : world).
Hypothesis side_ok : valid_side side.

Let step := fun t i => slice_trace self symbol side slice_qty interval slices w i t.




End TwapQuantities.

(** ** Rounding in [SpecFloat] *)












(** ** [float(N)] for an integer below 2^53 *)










(** ** The runtime model on known values *)

(** FIPS 180-4, the one-block message. *)
Example sha256_abc :
  hex_of_bytes (SHA256.digest (bytes_of_string "abc")) =
    "ba7816bf8f01cfea414140de5dae2223b00361a396177a9cb410ff61f20015ad".
Proof. vm_compute. reflexivity. Qed.

(** RFC 4231, test case 2. *)
Example hmac_sha256_rfc4231_case2 :
  hmac_sha256_hexdigest "Jefe" "what do ya want for nothing?" =
    "5bdcc146bf60754e6a042426089575c75a003f089d2739839dec58b964ec3843".
Proof. vm_compute. reflexivity. Qed.

Example float_repr_values :
  map float_repr [0.001; 0.1; 0.5; 62000; 1e16; 1e-5; 0.30000000000000004]%float =
    ["0.001"; "0.1"; "0.5"; "62000.0"; "1e+16"; "1e-05"; "0.30000000000000004"].
Proof. vm_compute. reflexivity. Qed.

Example urlencode_market_order :
  urlencode (market_params "btcusdt" "buy" 0.001%float) =
    "symbol=BTCUSDT&side=BUY&type=MARKET&quantity=0.001&reduceOnly=false&closePosition=false".
Proof. vm_compute. reflexivity. Qed.

(** [str.upper] outside ASCII: U+017F and U+0131 have ASCII upper cases,
    U+00DF has two characters, U+00E9 maps to U+00C9. *)
Example upper_beyond_ascii :
  upper ("po" ++ utf8_encode 0x17F ++ "t") = "POST"
  /\ upper ("l" ++ utf8_encode 0x131 ++ "m" ++ utf8_encode 0x131 ++ "t") = "LIMIT"
  /\ upper (utf8_encode 0xDF) = "SS"
  /\ upper (utf8_encode 0xE9 ++ "th") = utf8_encode 0xC9 ++ "TH".
Proof. vm_compute. repeat split. Qed.

(** [repr] of a string: the quote it picks and what it escapes. *)
Example str_repr_values :
  str_repr "it's" = String dquote ("it's" ++ String dquote EmptyString)
  /\ str_repr ("a" ++ utf8_encode 0xA0 ++ "b") = "'a\xa0b'"
  /\ str_repr (utf8_encode 0x3000) = "'\u3000'"
  /\ str_repr (utf8_encode 0xE9) = "'" ++ utf8_encode 0xE9 ++ "'"
  /\ str_repr (String (char_of 10) "x") = "'\nx'".
Proof. vm_compute. repeat split. Qed.

(** [time.sleep]: what it refuses before sleeping. *)
Example sleep_error_values :
  map sleep_error [VFloat 12; VFloat 0; VFloat 9.2e9; VInt 9223372036] =
    [None; None; None; None]
  /\ map (fun v => option_map exn_class_of (sleep_error v))
       [VFloat 1e10; VFloat infinity; VInt 9223372037; VFloat (-1); VFloat nan; VNone] =
       [Some OverflowError; Some OverflowError; Some OverflowError; Some ValueError;
        Some ValueError; Some TypeError].
Proof. vm_compute. split; reflexivity. Qed.

(** Two slices over 2 * 10^10 seconds from the command line: the first
    order is tried, the sleep raises, and [main] exits with status 1. *)
Example twap_pause_too_long :
  fst (main {| arg_api_key := "key"; arg_api_secret := "secret";
               arg_symbol := "btcusdt"; arg_side := "buy"; arg_type := "twap";
               arg_quantity := 0.001%float; arg_price := None;
               arg_time_in_force := "GTC"; arg_dry_run := false;
               arg_twap_slices := 2; arg_twap_duration := 20000000000 |}
         demo_world []) =
    {| ended := Exited 1;
       printed := ["Unhandled error: timestamp too large to convert to C _PyTime_t"] |}.
Proof. vm_compute. reflexivity. Qed.

(** The scenario of the text: five slices of 0.5 over 60 seconds place five
    orders of 0.1, twelve seconds apart, none after the last; in binary64
    the five quantities add up to 0.5. *)
Example twap_scenario :
  let run := place_twap_order live_bot "ETHUSDT" "SELL" 0.5%float 5 60 synced_world [] in
  posted_quantities (snd run) = repeat (Some (VFloat 0.1%float)) 5
  /\ filter (fun ev => negb (is_http ev)) (snd run) = repeat (EvSleep (VFloat 12%float)) 4
  /\ nth_error (snd run) 2 = Some (EvSleep (VFloat 12%float))
  /\ last (snd run) (EvSleep VNone) <> EvSleep (VFloat 12%float)
  /\ (0.1 + 0.1 + 0.1 + 0.1 + 0.1 = 0.5)%float.
Proof.
  vm_compute. repeat split; discriminate.
Qed.

(** * Further properties of the code *)

(** ** Strings and dictionaries *)


Lemma str_app_nil_r (a : string) : a ++ EmptyString = a.
Proof. induction a as [|x a IH]; simpl; [reflexivity | now rewrite IH]. Qed.

Lemma dict_set_fresh (d : pydict) (k : string) (v : pyval) :
  dict_get d k = None -> dict_set d k v = (d ++ [(k, v)])%list.
Proof.
  induction d as [|[k' v'] d IH]; simpl; [reflexivity|].
  destruct (String.eqb k' k); [discriminate|].
  intros H. now rewrite IH.
Qed.

Lemma dict_get_app_fresh (d : pydict) (k k' : string) (v : pyval) :
  k <> k' -> dict_get (d ++ [(k, v)])%list k' = dict_get d k'.
Proof.
  intros Hne. induction d as [|[k0 v0] d IH]; simpl.
  - destruct (String.eqb_spec k k'); [contradiction | reflexivity].
  - destruct (String.eqb k0 k'); auto.
Qed.

Lemma dict_set_keys (d : pydict) (k : string) (v : pyval) :
  map fst (dict_set d k v) =
    if has_key d k then map fst d else (map fst d ++ [k])%list.
Proof.
  unfold has_key. induction d as [|[k' v'] d IH]; simpl; [reflexivity|].
  destruct (String.eqb k' k); simpl; [reflexivity|].
  rewrite IH. destruct (dict_get d k); reflexivity.
Qed.


(** ** [__init__]: the base URL *)

Lemma rstrip_slash_cons (c : ascii) (s : string) :
  rstrip_slash (String c s) =
    match rstrip_slash s with
    | EmptyString => if Ascii.eqb c "/" then EmptyString else String c EmptyString
    | rest => String c rest
    end.
Proof. reflexivity. Qed.

Lemma rstrip_slash_trailing (s : string) : ends_with_slash (rstrip_slash s) = false.
Proof.
  induction s as [|c s IH]; [reflexivity|].
  rewrite rstrip_slash_cons.
  destruct (rstrip_slash s) as [|c' s'] eqn:E.
  - destruct (Ascii.eqb c "/") eqn:Ec; [reflexivity|]. simpl. exact Ec.
  - exact IH.
Qed.

Lemma rstrip_slash_split (s : string) :
  exists n, s = rstrip_slash s ++ slashes n.
Proof.
  induction s as [|c s [n IH]]; [exists 0%nat; reflexivity|].
  rewrite rstrip_slash_cons.
  destruct (rstrip_slash s) as [|c' s'] eqn:E.
  - destruct (Ascii.eqb_spec c "/") as [->|Hc].
    + exists (S n). simpl in *. now rewrite <- IH.
    + exists n. simpl in *. now rewrite <- IH.
  - exists n. simpl in *. now rewrite <- IH.
Qed.

Lemma rstrip_slash_fixed (s : string) :
  ends_with_slash s = false -> rstrip_slash s = s.
Proof.
  induction s as [|c s IH]; [reflexivity|].
  intros H. rewrite rstrip_slash_cons.
  destruct s as [|c' s'].
  - simpl in *. now rewrite H.
  - assert (Hs : ends_with_slash (String c' s') = false) by exact H.
    rewrite (IH Hs). reflexivity.
Qed.

(** X1: the constructor removes every trailing slash of the base URL and
    nothing else: the stored URL does not end with a slash, the given one is
    the stored one followed by slashes only, and a URL without a trailing
    slash is stored as given. *)
Theorem X1_init_strips_trailing_slashes
    (key secret url : string) (dry : bool) :
  let bot := BasicBot_init key secret url dry in
  ends_with_slash (base_url bot) = false
  /\ (exists n, url = base_url bot ++ slashes n)
  /\ (ends_with_slash url = false -> base_url bot = url).
Proof.
  intros bot. split; [apply rstrip_slash_trailing|].
  split; [apply rstrip_slash_split | apply rstrip_slash_fixed].
Qed.

Lemma X1_witness :
  base_url (BasicBot_init "key" "secret" TESTNET_BASE false) = TESTNET_BASE.
Proof.
  apply (proj2 (proj2 (X1_init_strips_trailing_slashes "key" "secret" TESTNET_BASE false))).
  reflexivity.
Defined.

(** ** [get_server_time] *)

Lemma get_server_time_run (self : BasicBot) (w : world) (tr : trace) :
  get_server_time self w tr =
    (match net w (List.length (http_calls tr)) with
     | NetRaise msg => Raise (Raised RequestException msg)
     | NetReply r =>
         match json r with
         | JsonError msg => Raise (Raised JSONDecodeError msg)
         | JsonValue data => fst (subscript data "serverTime" w [])
         end
     end,
     (tr ++ [time_call self])%list).
Proof.
  unfold get_server_time, bind, session_call, time_call.
  destruct (net w (List.length (http_calls tr))) as [msg|r]; [reflexivity|].
  unfold resp_json. destruct (json r) as [data|msg]; [|reflexivity].
  unfold ret. destruct data as [| | | | | |d]; try reflexivity.
  simpl. destruct (dict_get d "serverTime"); reflexivity.
Qed.

(** X2: [get_server_time] makes one call, the GET of the time endpoint
    without parameters and with a timeout of 5 seconds, whatever comes of it.
    It does not look at the HTTP status: any response whose body is a JSON
    object with a [serverTime] gives that value, a 500 as well as a 200.  A
    JSON object without the key raises [KeyError], and a transport failure
    comes out as it is. *)
Theorem X2_server_time_ignores_status
    (self : BasicBot) (w : world) (tr : trace) :
  snd (get_server_time self w tr) =
    (tr ++ [EvHttp GET (base_url self ++ "/fapi/v1/time") None 5])%list
  /\ (forall r d v,
        net w (List.length (http_calls tr)) = NetReply r ->
        json r = JsonValue (VDict d) ->
        dict_get d "serverTime" = Some v ->
        fst (get_server_time self w tr) = Return v)
  /\ (forall r d,
        net w (List.length (http_calls tr)) = NetReply r ->
        json r = JsonValue (VDict d) ->
        dict_get d "serverTime" = None ->
        fst (get_server_time self w tr) = Raise (Raised KeyError "'serverTime'"))
  /\ (forall msg,
        net w (List.length (http_calls tr)) = NetRaise msg ->
        fst (get_server_time self w tr) = Raise (Raised RequestException msg)).
Proof.
  rewrite get_server_time_run. cbn [fst snd].
  split; [reflexivity|]. split; [|split].
  - intros r d v -> -> Hget. simpl. now rewrite Hget.
  - intros r d -> -> Hget. simpl. now rewrite Hget.
  - intros msg ->. reflexivity.
Qed.

Lemma X2_witness :
  fst (get_server_time live_bot
         (reply_world (json_reply 500 (VDict [("serverTime", VInt 1700000000000)]))) [])
    = Return (VInt 1700000000000).
Proof.
  apply (proj1 (proj2 (X2_server_time_ignores_status live_bot
           (reply_world (json_reply 500 (VDict [("serverTime", VInt 1700000000000)]))) []))
           (json_reply 500 (VDict [("serverTime", VInt 1700000000000)]))
           [("serverTime", VInt 1700000000000)] (VInt 1700000000000)
           eq_refl eq_refl eq_refl).
Defined.

(** ** [_timestamped_params] *)

(** X3: stamping keeps the caller's parameters: every key other than
    [timestamp] and [recvWindow] keeps its value, and the keys keep their
    order and place.  When the caller gave neither key, the result is the
    caller's items followed by [timestamp] and [recvWindow], in this order;
    a [timestamp] or [recvWindow] the caller gave is overwritten where it
    stands. *)
Theorem X3_stamping_keeps_parameters
    (self : BasicBot) (extra : pydict) (w : world) (tr : trace) :
  exists p tr',
    _timestamped_params self extra w tr = (Return p, tr')
    /\ (forall k, k <> "timestamp" -> k <> "recvWindow" ->
          dict_get p k = dict_get extra k)
    /\ firstn (List.length extra) (map fst p) = map fst extra
    /\ (has_key extra "timestamp" = false -> has_key extra "recvWindow" = false ->
        p = (extra ++ [("timestamp", stamp_of w tr);
                       ("recvWindow", VInt RECV_WINDOW)])%list)
    /\ (has_key extra "timestamp" = true -> has_key extra "recvWindow" = true ->
        map fst p = map fst extra).
Proof.
  do 2 eexists. split; [apply timestamped_params_run|].
  assert (Hts : has_key (dict_set extra "timestamp" (stamp_of w tr)) "recvWindow"
                = has_key extra "recvWindow").
  { unfold has_key. now rewrite dict_get_set_other by discriminate. }
  split; [|split; [|split]].
  - intros k H1 H2. now rewrite !dict_get_set_other by congruence.
  - rewrite !dict_set_keys, Hts.
    rewrite <- (length_map fst extra).
    destruct (has_key extra "timestamp"), (has_key extra "recvWindow");
      rewrite <- ?app_assoc, ?firstn_app, ?Nat.sub_diag, ?firstn_all, ?firstn_O,
        ?app_nil_r; reflexivity.
  - unfold has_key. intros H1 H2.
    destruct (dict_get extra "timestamp") eqn:E1; [discriminate|].
    destruct (dict_get extra "recvWindow") eqn:E2; [discriminate|].
    rewrite (dict_set_fresh extra "timestamp" _ E1).
    rewrite dict_set_fresh; [now rewrite <- app_assoc|].
    now rewrite dict_get_app_fresh by discriminate.
  - intros H1 H2. now rewrite !dict_set_keys, Hts, H1, H2.
Qed.

Lemma X3_witness :
  exists p tr',
    _timestamped_params live_bot [("symbol", VStr "BTCUSDT")] synced_world [] =
      (Return p, tr')
    /\ p = [("symbol", VStr "BTCUSDT"); ("timestamp", VInt 1700000000500);
            ("recvWindow", VInt 15000)].
Proof.
  destruct (X3_stamping_keeps_parameters live_bot [("symbol", VStr "BTCUSDT")]
              synced_world []) as (p & tr' & Hrun & _ & _ & Hfresh & _).
  exists p, tr'. split; [exact Hrun|].
  exact (Hfresh eq_refl eq_refl).
Defined.

(** ** [request]: what is sent *)

Lemma request_live_trace (self : BasicBot) (method path : string)
    (params : option pydict) (signed : bool) (w : world) (tr : trace) (v : verb) :
  dry_run self = false ->
  verb_of method = Some v ->
  snd (request self method path params signed w tr) =
    (trace_at_call self signed tr
       ++ [EvHttp v (base_url self ++ path)
             (Some (full_params_of self params signed w tr)) 10])%list.
Proof.
  intros Hlive Hverb. rewrite (request_live _ _ _ _ _ _ _ Hlive). cbv zeta.
  rewrite Hverb. destruct (net w _); reflexivity.
Qed.









(** X5: an unsigned request on a live bot sends the caller's parameters as
    they are, in one call with a timeout of 10 seconds, and does not call
    the time endpoint: nothing is stamped or signed, and no parameters at
    all are the empty dictionary. *)
Theorem X5_unsigned_request_sends_parameters_unchanged
    (self : BasicBot) (method path : string) (params : option pydict)
    (w : world) (tr : trace) (v : verb) :
  dry_run self = false ->
  verb_of method = Some v ->
  snd (request self method path params false w tr) =
    (tr ++ [EvHttp v (base_url self ++ path)
              (Some match params with Some p => p | None => [] end) 10])%list.
Proof.
  intros Hlive Hverb.
  now rewrite (request_live_trace _ _ _ _ _ _ _ _ Hlive Hverb).
Qed.

Lemma X5_witness :
  snd (request live_bot "delete" ORDER_PATH (Some [("orderId", VInt 7)]) false
         demo_world []) =
    [EvHttp DELETE "https://testnet.binancefuture.com/fapi/v1/order"
       (Some [("orderId", VInt 7)]) 10].
Proof.
  exact (X5_unsigned_request_sends_parameters_unchanged live_bot "delete" ORDER_PATH
           (Some [("orderId", VInt 7)]) demo_world [] DELETE eq_refl eq_refl).
Defined.

(** ** [request]: one attempt, and what comes back *)

Lemma request_events (self : BasicBot) (method path : string)
    (params : option pydict) (signed : bool) (w : world) (tr : trace) :
  snd (request self method path params signed w tr) =
    (tr ++ (if signed then [time_call self] else [])
        ++ (if dry_run self then []
            else match verb_of method with
                 | Some v => [EvHttp v (base_url self ++ path)
                                (Some (full_params_of self params signed w tr)) 10]
                 | None => []
                 end))%list.
Proof.
  destruct (dry_run self) eqn:Hdry.
  - rewrite (request_dry_run _ _ _ _ _ _ _ Hdry).
    destruct signed; cbn [snd]; now rewrite ?app_nil_r.
  - rewrite (request_live _ _ _ _ _ _ _ Hdry). cbv zeta. unfold trace_at_call.
    destruct (verb_of method).
    + destruct (net w _); cbn [snd];
        destruct signed; now rewrite <- ?app_assoc.
    + cbn [snd]. destruct signed; now rewrite ?app_nil_r.
Qed.












(** ** [place_order] and its wrappers *)

Lemma order_params_fields
    (symbol side order_type : string) (quantity : float) (price : option float)
    (time_in_force : string) (reduce_only close_position : bool)
    (position_side : option string) (params : pydict) :
  order_params symbol side order_type quantity price time_in_force
    reduce_only close_position position_side = Return params ->
  params = order_fields symbol side order_type quantity price time_in_force
             reduce_only close_position position_side.
Proof.
  unfold order_params, order_fields.
  destruct (String.eqb (upper side) "BUY" || String.eqb (upper side) "SELL");
    [|discriminate].
  destruct (String.eqb (upper order_type) "MARKET" || String.eqb (upper order_type) "LIMIT");
    [|discriminate].
  cbn [negb].
  destruct position_side as [ps|]; cbn [truthy];
    [destruct (String.eqb ps EmptyString); cbn [negb]|];
    destruct (String.eqb (upper order_type) "LIMIT");
    destruct price as [p|]; try discriminate;
    intros [= <-]; reflexivity.
Qed.



(** X10: an order that passes validation has the fields [symbol], [side],
    [type], [quantity], [reduceOnly], [closePosition], then [positionSide]
    if one is given and not empty, then [price] and [timeInForce] if the
    type is LIMIT, in this order and no others.  Symbol, side and type are
    upper-cased, the two flags are the strings true and false.  A MARKET
    order carries no [price] and no [timeInForce], even when a price is
    passed. *)
Theorem X10_order_fields_in_fixed_order
    (symbol side order_type : string) (quantity : float) (price : option float)
    (time_in_force : string) (reduce_only close_position : bool)
    (position_side : option string) (params : pydict) :
  order_params symbol side order_type quantity price time_in_force
    reduce_only close_position position_side = Return params ->
  params = order_fields symbol side order_type quantity price time_in_force
             reduce_only close_position position_side
  /\ (upper order_type = "MARKET" ->
      dict_get params "price" = None /\ dict_get params "timeInForce" = None)
  /\ (position_side = None \/ position_side = Some EmptyString ->
      dict_get params "positionSide" = None).
Proof.
  intros H. apply order_params_fields in H. subst params.
  split; [reflexivity|]. unfold order_fields. split.
  - intros Hm. rewrite Hm. cbn [String.eqb Ascii.eqb Bool.eqb].
    destruct position_side as [ps|]; [destruct (String.eqb ps EmptyString)|];
      destruct price; split; reflexivity.
  - intros [-> | ->]; cbn [String.eqb];
      destruct price; try destruct (String.eqb (upper order_type) "LIMIT"); reflexivity.
Qed.

Lemma X10_witness :
  order_params "btcusdt" "buy" "market" 0.001%float (Some 62000%float) "GTC"
    false false (Some "LONG") =
    Return [("symbol", VStr "BTCUSDT"); ("side", VStr "BUY"); ("type", VStr "MARKET");
            ("quantity", VFloat 0.001%float); ("reduceOnly", VStr "false");
            ("closePosition", VStr "false"); ("positionSide", VStr "LONG")].
Proof.
  destruct (order_params "btcusdt" "buy" "market" 0.001%float (Some 62000%float) "GTC"
              false false (Some "LONG")) as [params|e] eqn:E.
  - f_equal.
    exact (proj1 (X10_order_fields_in_fixed_order "btcusdt" "buy" "market" 0.001%float
                    (Some 62000%float) "GTC" false false (Some "LONG") params E)).
  - vm_compute in E. discriminate E.
Defined.



(** ** [place_twap_order]: pacing and network use *)

Lemma sleeps_app (tr1 tr2 : trace) :
  sleeps (tr1 ++ tr2)%list = (sleeps tr1 ++ sleeps tr2)%list.
Proof. apply filter_app. Qed.

Lemma http_calls_app (tr1 tr2 : trace) :
  http_calls (tr1 ++ tr2)%list = (http_calls tr1 ++ http_calls tr2)%list.
Proof. apply filter_app. Qed.

(** The events a market order adds: none when the order is not built, else
    those of its request. *)
Lemma place_market_order_events (self : BasicBot) (symbol side : string)
    (quantity : float) (w : world) (tr : trace) :
  exists evs,
    snd (place_market_order self symbol side quantity false None w tr) = (tr ++ evs)%list
    /\ sleeps evs = []
    /\ Forall (bot_event self) evs.
Proof.
  unfold place_market_order, place_order, bind, lift.
  destruct (order_params symbol side "MARKET" quantity None "GTC" false false None)
    as [params|e].
  - rewrite request_events. change (verb_of "POST") with (Some POST). cbv iota beta.
    eexists. split; [reflexivity|].
    assert (Htime : bot_event self (time_call self))
      by (left; repeat split).
    destruct (dry_run self); cbn [app]; (split; [reflexivity|]).
    + constructor; [exact Htime | constructor].
    + constructor; [exact Htime|]. constructor; [|constructor].
      right. repeat split. eexists. reflexivity.
  - exists []. cbn [snd]. rewrite app_nil_r. repeat split. constructor.
Qed.

Lemma range_snoc (n : Z) : 1 <= n -> range n = (range (n - 1) ++ [n - 1])%list.
Proof.
  intros H. unfold range.
  replace (Z.to_nat n) with (S (Z.to_nat (n - 1))) by lia.
  rewrite seq_S, map_app. cbn [map Nat.add]. f_equal. f_equal. lia.
Qed.

Section TwapPacing.

Variables (self : BasicBot) (symbol side : string) (slice_qty interval : float)
  (slices : Z) (w : world).

Let step := fun t i => slice_trace self symbol side slice_qty interval slices w i t.
Let pause (i : Z) : list event :=
  if (i <? slices - 1) && float_is_pos interval then [EvSleep (VFloat interval)] else [].

Lemma slice_trace_sleeps (i : Z) (tr : trace) :
  sleeps (step tr i) = (sleeps tr ++ pause i)%list.
Proof.
  unfold step, slice_trace, pause. cbv zeta.
  destruct (place_market_order_events self symbol side slice_qty w tr)
    as (evs & -> & Hs & _).
  destruct ((i <? slices - 1) && float_is_pos interval);
    rewrite !sleeps_app, Hs; cbn; now rewrite ?app_nil_r.
Qed.

Lemma loop_sleeps (xs : list Z) (tr : trace) :
  sleeps (fold_left step xs tr) = (sleeps tr ++ flat_map pause xs)%list.
Proof.
  revert tr. induction xs as [|i rest IH]; intros tr.
  - simpl. now rewrite app_nil_r.
  - cbn [fold_left flat_map]. rewrite IH, slice_trace_sleeps. now rewrite <- app_assoc.
Qed.

Lemma naps_before_last (xs : list Z) :
  (forall i, In i xs -> i < slices - 1) ->
  flat_map pause xs =
    if float_is_pos interval then repeat (EvSleep (VFloat interval)) (List.length xs)
    else [].
Proof.
  induction xs as [|i rest IH]; intros H.
  - simpl. now destruct (float_is_pos interval).
  - cbn [flat_map List.length repeat]. rewrite IH by (intros; apply H; now right).
    unfold pause. assert (Hi : i < slices - 1) by (apply H; now left).
    apply Z.ltb_lt in Hi. rewrite Hi. cbn [andb].
    now destruct (float_is_pos interval).
Qed.

End TwapPacing.

Lemma twap_run_sleeps
    (self : BasicBot) (symbol side : string) (quantity : float)
    (slices duration : Z) (slice_qty interval : float) (w : world) (tr : trace) :
  1 <= slices -> 0 <= duration ->
  float_div_int quantity slices = Return slice_qty ->
  int_truediv duration slices = Return interval ->
  pauses_granted w slices interval ->
  sleeps (snd (place_twap_order self symbol side quantity slices duration w tr)) =
    (sleeps tr ++ if float_is_pos interval
                  then repeat (EvSleep (VFloat interval)) (Z.to_nat (slices - 1))
                  else [])%list.
Proof.
  intros Hs Hd Hq Hi Hp.
  rewrite (place_twap_order_run _ _ _ _ _ _ _ _ _ _ Hs Hd Hq Hi Hp). cbn [snd].
  rewrite (range_snoc slices Hs), fold_left_app. cbn [fold_left].
  rewrite slice_trace_sleeps, loop_sleeps.
  rewrite naps_before_last
    by (intros i Hin; apply range_bound in Hin; lia).
  rewrite range_length, Z.ltb_irrefl. cbn [andb]. now rewrite !app_nil_r.
Qed.

(** X12: a TWAP run of N slices whose pauses are granted sleeps N-1 times,
    each time for the interval [duration / slices], when that interval is
    positive, and not at all when it is zero: one sleep after every slice
    but the last.  The run ends with the events of the last market order:
    nothing follows it. *)
Theorem X12_twap_sleeps_between_slices
    (self : BasicBot) (symbol side : string) (quantity : float)
    (slices duration : Z) (slice_qty interval : float) (w : world) (tr : trace) :
  1 <= slices -> 0 <= duration ->
  float_div_int quantity slices = Return slice_qty ->
  int_truediv duration slices = Return interval ->
  pauses_granted w slices interval ->
  let tr' := snd (place_twap_order self symbol side quantity slices duration w tr) in
  sleeps tr' =
    (sleeps tr ++ if float_is_pos interval
                  then repeat (EvSleep (VFloat interval)) (Z.to_nat (slices - 1))
                  else [])%list
  /\ tr' = snd (place_market_order self symbol side slice_qty false None w
                  (trace_before_slice self symbol side slice_qty interval slices w tr
                     (Z.to_nat (slices - 1)))).
Proof.
  intros Hs Hd Hq Hi Hp tr'. unfold tr'.
  split;
    [exact (twap_run_sleeps self symbol side quantity slices duration slice_qty interval
              w tr Hs Hd Hq Hi Hp)|].
  rewrite (place_twap_order_run _ _ _ _ _ _ _ _ _ _ Hs Hd Hq Hi Hp). cbn [snd].
  rewrite (range_snoc slices Hs), fold_left_app. cbn [fold_left].
  unfold slice_trace at 1. cbv zeta. rewrite Z.ltb_irrefl. cbn [andb].
  unfold trace_before_slice. now rewrite Z2Nat.id by lia.
Qed.

Lemma X12_witness :
  sleeps (snd (place_twap_order live_bot "ETHUSDT" "SELL" 0.5%float 5 60 synced_world []))
    = repeat (EvSleep (VFloat 12%float)) 4.
Proof.
  exact (proj1 (X12_twap_sleeps_between_slices live_bot "ETHUSDT" "SELL" 0.5%float 5 60
                  (0.5 / 5)%float 12%float synced_world []
                  ltac:(lia) ltac:(lia) ltac:(vm_compute; reflexivity)
                  ltac:(vm_compute; reflexivity)
                  ltac:(right; right; split; [vm_compute; reflexivity | intros n; reflexivity]))).
Defined.

Lemma place_market_order_bad_side (self : BasicBot) (symbol side : string)
    (quantity : float) (w : world) (tr : trace) :
  ~ valid_side side ->
  place_market_order self symbol side quantity false None w tr =
    (Raise (Raised ValueError "side must be BUY or SELL"), tr).
Proof.
  intros Hbad. unfold place_market_order, place_order, bind, lift, order_params.
  destruct (String.eqb (upper side) "BUY" || String.eqb (upper side) "SELL") eqn:E;
    [|reflexivity].
  exfalso. apply Hbad. now apply valid_side_dec.
Qed.

Section TwapBadSide.

Variables (self : BasicBot) (symbol side : string) (slice_qty interval : float)
  (slices : Z) (w : world).
Hypothesis side_bad : ~ valid_side side.

Let step := fun t i => slice_trace self symbol side slice_qty interval slices w i t.

Lemma bad_side_entries (xs : list Z) (tr : trace) :
  loop_entries self symbol side slice_qty interval slices w xs tr =
    repeat (error_entry (Raised ValueError "side must be BUY or SELL")) (List.length xs).
Proof.
  revert tr. induction xs as [|i rest IH]; intros tr; [reflexivity|].
  cbn [loop_entries List.length repeat]. rewrite IH. f_equal.
  unfold slice_entry. now rewrite place_market_order_bad_side.
Qed.

Lemma bad_side_calls (xs : list Z) (tr : trace) :
  http_calls (fold_left step xs tr) = http_calls tr.
Proof.
  revert tr. induction xs as [|i rest IH]; intros tr; [reflexivity|].
  cbn [fold_left]. rewrite IH. unfold step, slice_trace. cbv zeta.
  rewrite place_market_order_bad_side by assumption. cbn [snd].
  destruct ((i <? slices - 1) && float_is_pos interval); [|reflexivity].
  rewrite http_calls_app. cbn. now rewrite app_nil_r.
Qed.

End TwapBadSide.

(** X13: the side is not checked before the loop.  A TWAP run with a side
    whose upper case is neither BUY nor SELL, and whose pauses are granted,
    does not fail: it returns N entries, each the error entry "side must be
    BUY or SELL", makes no HTTP call at all and still sleeps between the
    slices. *)
Theorem X13_twap_with_bad_side_returns_errors
    (self : BasicBot) (symbol side : string) (quantity : float)
    (slices duration : Z) (slice_qty interval : float) (w : world) (tr : trace) :
  1 <= slices -> 0 <= duration ->
  float_div_int quantity slices = Return slice_qty ->
  int_truediv duration slices = Return interval ->
  pauses_granted w slices interval ->
  ~ valid_side side ->
  exists tr',
    place_twap_order self symbol side quantity slices duration w tr =
      (Return (repeat (VDict [("error", VStr "side must be BUY or SELL")])
                 (Z.to_nat slices)), tr')
    /\ http_calls tr' = http_calls tr
    /\ sleeps tr' =
         (sleeps tr ++ if float_is_pos interval
                       then repeat (EvSleep (VFloat interval)) (Z.to_nat (slices - 1))
                       else [])%list.
Proof.
  intros Hs Hd Hq Hi Hp Hbad. eexists. split; [|split].
  - rewrite (place_twap_order_run _ _ _ _ _ _ _ _ _ _ Hs Hd Hq Hi Hp).
    rewrite bad_side_entries by assumption. now rewrite range_length.
  - now apply bad_side_calls.
  - rewrite <- (twap_run_sleeps self symbol side quantity slices duration slice_qty
                  interval w tr Hs Hd Hq Hi Hp).
    now rewrite (place_twap_order_run _ _ _ _ _ _ _ _ _ _ Hs Hd Hq Hi Hp).
Qed.

Lemma X13_witness :
  exists tr',
    place_twap_order live_bot "ETHUSDT" "HOLD" 0.5%float 3 6 synced_world [] =
      (Return (repeat (VDict [("error", VStr "side must be BUY or SELL")]) 3), tr')
    /\ http_calls tr' = []
    /\ sleeps tr' = repeat (EvSleep (VFloat 2%float)) 2.
Proof.
  destruct (X13_twap_with_bad_side_returns_errors live_bot "ETHUSDT" "HOLD" 0.5%float 3 6
              (0.5 / 3)%float 2%float synced_world []) as (tr' & Hrun & Hcalls & Hsleeps).
  - lia.
  - lia.
  - vm_compute. reflexivity.
  - vm_compute. reflexivity.
  - right. right. split; [vm_compute; reflexivity | intros n; reflexivity].
  - intros [H|H]; vm_compute in H; discriminate H.
  - exists tr'. split; [exact Hrun|]. split; [exact Hcalls | exact Hsleeps].
Defined.

Section TwapCalls.

Variables (self : BasicBot) (symbol side : string) (slice_qty interval : float)
  (slices : Z) (w : world).
Hypothesis side_ok : valid_side side.

Let step := fun t i => slice_trace self symbol side slice_qty interval slices w i t.





End TwapCalls.



(** ** [main] *)

Lemma place_order_events (self : BasicBot) (symbol side order_type : string)
    (quantity : float) (price : option float) (time_in_force : string)
    (reduce_only close_position : bool) (position_side : option string)
    (w : world) (tr : trace) :
  exists evs,
    snd (place_order self symbol side order_type quantity price time_in_force
           reduce_only close_position position_side w tr) = (tr ++ evs)%list
    /\ Forall (bot_event self) evs.
Proof.
  unfold place_order, bind, lift.
  destruct (order_params symbol side order_type quantity price time_in_force
              reduce_only close_position position_side) as [params|e].
  - rewrite request_events. change (verb_of "POST") with (Some POST). cbv iota beta.
    eexists. split; [reflexivity|].
    assert (Htime : bot_event self (time_call self)) by (left; repeat split).
    destruct (dry_run self); cbn [app].
    + constructor; [exact Htime | constructor].
    + constructor; [exact Htime|]. constructor; [|constructor].
      right. repeat split. eexists. reflexivity.
  - exists []. cbn [snd]. rewrite app_nil_r. split; [reflexivity | constructor].
Qed.

(** A sleep adds its own event or, when it raises, none. *)
Lemma sleep_events (self : BasicBot) (seconds : pyval) (w : world) (tr : trace) :
  exists evs,
    snd (sleep seconds w tr) = (tr ++ evs)%list /\ Forall (bot_event self) evs.
Proof.
  assert (Hnone : exists evs, tr = (tr ++ evs)%list /\ Forall (bot_event self) evs)
    by (exists []; rewrite app_nil_r; split; [reflexivity | constructor]).
  unfold sleep. destruct (sleep_error seconds); [exact Hnone|].
  destruct (nap w (List.length tr)); [exact Hnone|].
  exists [EvSleep seconds]. split; [reflexivity|].
  constructor; [exact I | constructor].
Qed.

(** One turn of the loop, whether its pause is granted or not. *)
Lemma twap_slice_events (self : BasicBot) (symbol side : string)
    (slice_qty interval : float) (slices : Z) (w : world) (i : Z)
    (responses : list pyval) (tr : trace) :
  exists evs,
    snd (twap_slice self symbol side slice_qty (VFloat interval) slices i responses w tr)
      = (tr ++ evs)%list
    /\ Forall (bot_event self) evs.
Proof.
  unfold twap_slice, try_except, bind.
  destruct (place_market_order_events self symbol side slice_qty w tr)
    as (evs & Hsnd & _ & Hall).
  destruct (place_market_order self symbol side slice_qty false None w tr)
    as [[resp|e] tr1]; cbn [snd] in Hsnd; subst tr1; cbn [ret gt_zero];
    (destruct ((i <? slices - 1)); cbn [ret];
     [destruct (float_is_pos interval)|]; cbn [ret];
     try (exists evs; split; [reflexivity | exact Hall]));
    destruct (sleep_events self (VFloat interval) w (tr ++ evs)%list)
      as (evs' & Hsleep & Hall');
    destruct (sleep (VFloat interval) w (tr ++ evs)%list) as [[[]|e'] tr2];
    cbn [snd] in Hsleep; subst tr2;
    exists (evs ++ evs')%list; rewrite <- app_assoc;
    (split; [reflexivity | now apply Forall_app]).
Qed.

Lemma twap_loop_events (self : BasicBot) (symbol side : string)
    (slice_qty interval : float) (slices : Z) (w : world) (xs : list Z)
    (responses : list pyval) (tr : trace) :
  exists evs,
    snd (for_loop xs (twap_slice self symbol side slice_qty (VFloat interval) slices)
           responses w tr) = (tr ++ evs)%list
    /\ Forall (bot_event self) evs.
Proof.
  revert responses tr. induction xs as [|i rest IH]; intros responses tr.
  - exists []. cbn [for_loop ret snd]. rewrite app_nil_r.
    split; [reflexivity | constructor].
  - cbn [for_loop]. unfold bind.
    destruct (twap_slice_events self symbol side slice_qty interval slices w i
                responses tr) as (evs1 & Hsnd & H1).
    destruct (twap_slice self symbol side slice_qty (VFloat interval) slices i
                responses w tr) as [[acc|e] tr1]; cbn [snd] in Hsnd; subst tr1.
    + destruct (IH acc (tr ++ evs1)%list) as (evs2 & -> & H2).
      exists (evs1 ++ evs2)%list. rewrite <- app_assoc.
      split; [reflexivity|]. now apply Forall_app.
    + exists evs1. split; [reflexivity | exact H1].
Qed.

Lemma place_twap_order_events (self : BasicBot) (symbol side : string)
    (quantity : float) (slices duration : Z) (w : world) (tr : trace) :
  exists evs,
    snd (place_twap_order self symbol side quantity slices duration w tr) = (tr ++ evs)%list
    /\ Forall (bot_event self) evs.
Proof.
  assert (Hnone : exists evs, tr = (tr ++ evs)%list /\ Forall (bot_event self) evs)
    by (exists []; rewrite app_nil_r; split; [reflexivity | constructor]).
  unfold place_twap_order.
  destruct (Z.ltb_spec slices 1); [exact Hnone|].
  destruct (Z.ltb_spec duration 0); [exact Hnone|].
  destruct (Z.ltb_spec 0 slices); [|lia].
  unfold bind at 1. unfold lift at 1.
  destruct (float_div_int quantity slices) as [slice_qty|e]; [|exact Hnone].
  unfold bind at 1. unfold bind at 1. unfold lift at 1.
  destruct (int_truediv duration slices) as [interval|e]; [|exact Hnone].
  unfold ret at 1. apply twap_loop_events.
Qed.

Lemma slice_lines_length (idx : Z) (res : list pyval) :
  List.length (slice_lines idx res) = List.length res.
Proof.
  revert idx. induction res as [|r rest IH]; intros idx; simpl; auto.
Qed.

Lemma testnet_base_url (key secret : string) (dry : bool) :
  base_url (BasicBot_init key secret TESTNET_BASE dry) = TESTNET_BASE.
Proof. reflexivity. Qed.

Lemma except_clauses_line (e : exn) :
  ended (except_clauses e) = Exited 1
  /\ (exn_class_of e = BinanceAPIError ->
      printed (except_clauses e) = ["Error: " ++ exn_text e])
  /\ (exn_class_of e <> BinanceAPIError ->
      printed (except_clauses e) = ["Unhandled error: " ++ exn_text e]).
Proof.
  destruct e as [c msg]. unfold except_clauses. cbn [exn_class_of exn_text].
  destruct c; cbn [ended printed]; repeat split; intros; congruence.
Qed.

Lemma main_no_order (args : Args) (w : world) (tr : trace) :
  no_order args -> main args w tr = ({| ended := Exited 2; printed := [] |}, tr).
Proof.
  intros [[Hk Hp]|(Hm & Hl & Ht)]; unfold main; cbv zeta.
  - rewrite Hk, Hp. reflexivity.
  - destruct (String.eqb_spec (upper (arg_type args)) "MARKET"); [contradiction|].
    destruct (String.eqb_spec (upper (arg_type args)) "LIMIT"); [contradiction|].
    destruct (String.eqb_spec (upper (arg_type args)) "TWAP"); [contradiction|].
    reflexivity.
Qed.

Lemma main_order_raises (args : Args) (w : world) (tr : trace) (e : exn) (tr' : trace) :
  order_raises args w tr e tr' -> main args w tr = (except_clauses e, tr').
Proof.
  unfold order_raises. cbv zeta.
  intros [[Hk Hc]|[(Hk & p & Hp & Hc)|[Hk Hc]]]; unfold main; cbv zeta; rewrite Hk.
  - change (String.eqb "MARKET" "MARKET") with true. cbv iota. now rewrite Hc.
  - change (String.eqb "LIMIT" "MARKET") with false.
    change (String.eqb "LIMIT" "LIMIT") with true. cbv iota. now rewrite Hp, Hc.
  - change (String.eqb "TWAP" "MARKET") with false.
    change (String.eqb "TWAP" "LIMIT") with false.
    change (String.eqb "TWAP" "TWAP") with true. cbv iota. now rewrite Hc.
Qed.

Lemma main_order_returns (args : Args) (w : world) (tr : trace) (lines : list string)
    (tr' : trace) :
  order_returns args w tr lines tr' ->
  main args w tr = ({| ended := Returned; printed := lines |}, tr') /\ lines <> [].
Proof.
  unfold order_returns. cbv zeta.
  intros [(Hk & res & Hc & ->)|[(Hk & p & res & Hp & Hc & ->)|(Hk & res & Hc & ->)]];
    (split; [|discriminate]); unfold main; cbv zeta; rewrite Hk.
  - change (String.eqb "MARKET" "MARKET") with true. cbv iota. now rewrite Hc.
  - change (String.eqb "LIMIT" "MARKET") with false.
    change (String.eqb "LIMIT" "LIMIT") with true. cbv iota. now rewrite Hp, Hc.
  - change (String.eqb "TWAP" "MARKET") with false.
    change (String.eqb "TWAP" "LIMIT") with false.
    change (String.eqb "TWAP" "TWAP") with true. cbv iota. now rewrite Hc.
Qed.

(** Every run of [main] is of one of the three kinds. *)
Lemma main_kinds (args : Args) (w : world) (tr : trace) :
  no_order args
  \/ (exists e tr', order_raises args w tr e tr')
  \/ (exists lines tr', order_returns args w tr lines tr').
Proof.
  unfold no_order, order_raises, order_returns. cbv zeta.
  set (bot := BasicBot_init (arg_api_key args) (arg_api_secret args) TESTNET_BASE
                (arg_dry_run args)).
  destruct (String.eqb_spec (upper (arg_type args)) "MARKET") as [Hm|Hm].
  { destruct (place_market_order bot (upper (arg_symbol args)) (upper (arg_side args))
                (arg_quantity args) false None w tr) as [[res|e] tr'] eqn:Hc.
    - right. right. exists ["Result: " ++ py_str res], tr'. left. eauto.
    - right. left. exists e, tr'. left. auto. }
  destruct (String.eqb_spec (upper (arg_type args)) "LIMIT") as [Hl|Hl].
  { destruct (arg_price args) as [p|] eqn:Hp; [|left; left; auto].
    destruct (place_limit_order bot (upper (arg_symbol args)) (upper (arg_side args))
                (arg_quantity args) p (arg_time_in_force args) false None w tr)
      as [[res|e] tr'] eqn:Hc.
    - right. right. exists ["Result: " ++ py_str res], tr'. right. left.
      split; [exact Hl|]. exists p, res. auto.
    - right. left. exists e, tr'. right. left. split; [exact Hl|]. exists p. auto. }
  destruct (String.eqb_spec (upper (arg_type args)) "TWAP") as [Ht|Ht].
  { destruct (place_twap_order bot (upper (arg_symbol args)) (upper (arg_side args))
                (arg_quantity args) (arg_twap_slices args) (arg_twap_duration args) w tr)
      as [[res|e] tr'] eqn:Hc.
    - right. right. exists ("TWAP results:" :: slice_lines 1 res), tr'. right. right. eauto.
    - right. left. exists e, tr'. right. right. auto. }
  left. right. auto.
Qed.

(** X15: [main] ends in one of three ways, and which one is decided by the
    order it places.  It exits with status 2, having printed nothing and
    caused no event, exactly when it places no order: a LIMIT order lacks
    its price, or the upper-cased type is none of MARKET, LIMIT and TWAP.
    It exits with status 1 exactly when the call it places raises; it has
    then printed one line, the text of that exception behind "Error: " when
    it is a [BinanceAPIError] and behind "Unhandled error: " when it is any
    other, and its trace is the one the call left.  Otherwise the call
    returns and so does [main], after printing what the call returned. *)
Theorem X15_main_endings (args : Args) (w : world) (tr : trace) :
  let run := main args w tr in
  (ended (fst run) = Exited 2 <-> no_order args)
  /\ (no_order args -> printed (fst run) = [] /\ snd run = tr)
  /\ (ended (fst run) = Exited 1 <-> exists e tr', order_raises args w tr e tr')
  /\ (forall e tr', order_raises args w tr e tr' ->
        snd run = tr'
        /\ (exn_class_of e = BinanceAPIError ->
            printed (fst run) = ["Error: " ++ exn_text e])
        /\ (exn_class_of e <> BinanceAPIError ->
            printed (fst run) = ["Unhandled error: " ++ exn_text e]))
  /\ (ended (fst run) = Returned <-> exists lines tr', order_returns args w tr lines tr')
  /\ (forall lines tr', order_returns args w tr lines tr' ->
        printed (fst run) = lines /\ lines <> [] /\ snd run = tr').
Proof.
  cbv zeta.
  assert (Hnone := main_no_order args w tr).
  assert (Hraise := main_order_raises args w tr).
  assert (Hret := main_order_returns args w tr).
  assert (Hend : forall e, ended (except_clauses e) = Exited 1)
    by (intros e; apply except_clauses_line).
  split; [|split; [|split; [|split; [|split]]]].
  - split; [|intros H; now rewrite (Hnone H)].
    intros H. destruct (main_kinds args w tr) as [Hk|[(e & tr' & Hk)|(lines & tr' & Hk)]].
    + exact Hk.
    + rewrite (Hraise e tr' Hk) in H. cbn [fst] in H. rewrite Hend in H. discriminate.
    + rewrite (proj1 (Hret lines tr' Hk)) in H. discriminate.
  - intros H. now rewrite (Hnone H).
  - split; [|intros (e & tr' & H); rewrite (Hraise e tr' H); apply Hend].
    intros H. destruct (main_kinds args w tr) as [Hk|[Hk|(lines & tr' & Hk)]].
    + rewrite (Hnone Hk) in H. discriminate.
    + exact Hk.
    + rewrite (proj1 (Hret lines tr' Hk)) in H. discriminate.
  - intros e tr' H. rewrite (Hraise e tr' H). cbn [fst snd].
    split; [reflexivity | apply except_clauses_line].
  - split; [|intros (lines & tr' & H); now rewrite (proj1 (Hret lines tr' H))].
    intros H. destruct (main_kinds args w tr) as [Hk|[(e & tr' & Hk)|Hk]].
    + rewrite (Hnone Hk) in H. discriminate.
    + rewrite (Hraise e tr' Hk) in H. cbn [fst] in H. rewrite Hend in H. discriminate.
    + exact Hk.
  - intros lines tr' H. destruct (Hret lines tr' H) as [-> Hne]. auto.
Qed.

Lemma X15_witness :
  main (sample_args "limit" None) demo_world [] =
    ({| ended := Exited 2; printed := [] |}, [])
  /\ printed (fst (main (sample_args "market" None) demo_world [])) =
       ["Unhandled error: connection refused"].
Proof.
  split.
  - destruct (X15_main_endings (sample_args "limit" None) demo_world [])
      as (Hexit & Hquiet & _).
    assert (Hno : no_order (sample_args "limit" None)) by (left; split; reflexivity).
    destruct (Hquiet Hno) as [Hp Ht]. apply (proj2 Hexit) in Hno.
    destruct (main (sample_args "limit" None) demo_world []) as [[en pr] tr'].
    cbn [fst snd ended printed] in *. now subst.
  - destruct (X15_main_endings (sample_args "market" None) demo_world [])
      as (_ & _ & _ & Hline & _).
    refine (proj2 (proj2 (Hline (Raised RequestException "connection refused") _ _)) _).
    + left. split; [reflexivity | vm_compute; reflexivity].
    + discriminate.
Defined.

(** X16: slice failures do not reach the exit status of a TWAP run.  When
    the type is TWAP, the run reaches its loop and its pauses are granted,
    [main] returns, whatever happened to the slices, and prints "TWAP
    results:" followed by one line per slice.  With fewer than one slice it
    exits with status 1 and prints "Unhandled error: slices must be >= 1",
    having caused no event. *)
Theorem X16_main_twap_returns
    (args : Args) (slice_qty interval : float) (w : world) (tr : trace) :
  upper (arg_type args) = "TWAP" ->
  (1 <= arg_twap_slices args -> 0 <= arg_twap_duration args ->
   float_div_int (arg_quantity args) (arg_twap_slices args) = Return slice_qty ->
   int_truediv (arg_twap_duration args) (arg_twap_slices args) = Return interval ->
   pauses_granted w (arg_twap_slices args) interval ->
   ended (fst (main args w tr)) = Returned
   /\ hd EmptyString (printed (fst (main args w tr))) = "TWAP results:"
   /\ List.length (printed (fst (main args w tr))) = S (Z.to_nat (arg_twap_slices args)))
  /\ (arg_twap_slices args < 1 ->
      main args w tr =
        ({| ended := Exited 1; printed := ["Unhandled error: slices must be >= 1"] |}, tr)).
Proof.
  intros Ht. unfold main. cbv zeta. rewrite Ht.
  change (String.eqb "TWAP" "MARKET") with false.
  change (String.eqb "TWAP" "LIMIT") with false.
  change (String.eqb "TWAP" "TWAP") with true. cbv iota. split.
  - intros Hs Hd Hq Hi Hp.
    rewrite (place_twap_order_run _ _ _ _ _ _ _ _ _ _ Hs Hd Hq Hi Hp). cbn [fst ended printed hd].
    repeat split. cbn [List.length].
    now rewrite slice_lines_length, loop_entries_length, range_length.
  - intros Hs.
    unfold place_twap_order. destruct (Z.ltb_spec (arg_twap_slices args) 1); [|lia].
    reflexivity.
Qed.

Lemma X16_witness :
  ended (fst (main (sample_args "twap" None) demo_world [])) = Returned
  /\ List.length (printed (fst (main (sample_args "twap" None) demo_world []))) = 6%nat.
Proof.
  destruct (proj1 (X16_main_twap_returns (sample_args "twap" None)
                     (0.001 / 5)%float 12%float demo_world [] eq_refl)
              ltac:(cbn; lia) ltac:(cbn; lia) ltac:(vm_compute; reflexivity)
              ltac:(vm_compute; reflexivity)
              ltac:(right; right; split; [vm_compute; reflexivity | intros n; reflexivity]))
    as (Hend & _ & Hlen).
  split; [exact Hend | exact Hlen].
Defined.





(** X18: whatever its arguments, [main] talks to the testnet only and only
    in two ways: every event it causes is the GET of
    [https://testnet.binancefuture.com/fapi/v1/time] without parameters, the
    POST of [https://testnet.binancefuture.com/fapi/v1/order], or a sleep.
    It never sends a DELETE and never calls another host or path. *)
Theorem X18_main_calls_the_testnet_only (args : Args) (w : world) (tr : trace) :
  exists evs,
    snd (main args w tr) = (tr ++ evs)%list
    /\ Forall (fun ev =>
                 match ev with
                 | EvHttp v url params timeout =>
                     (v = GET
                      /\ url = "https://testnet.binancefuture.com/fapi/v1/time"
                      /\ params = None /\ timeout = 5)
                     \/ (v = POST
                         /\ url = "https://testnet.binancefuture.com/fapi/v1/order"
                         /\ timeout = 10 /\ exists full, params = Some full)
                 | EvSleep _ => True
                 end) evs.
Proof.
  set (bot := BasicBot_init (arg_api_key args) (arg_api_secret args) TESTNET_BASE
                (arg_dry_run args)).
  assert (Hnone : exists evs, tr = (tr ++ evs)%list /\ Forall (bot_event bot) evs)
    by (exists []; rewrite app_nil_r; split; [reflexivity | constructor]).
  change (exists evs, snd (main args w tr) = (tr ++ evs)%list /\ Forall (bot_event bot) evs).
  unfold main. cbv zeta. fold bot.
  destruct (String.eqb (upper (arg_type args)) "MARKET").
  { destruct (place_market_order_events bot (upper (arg_symbol args))
                (upper (arg_side args)) (arg_quantity args) w tr) as (evs & Hsnd & _ & Hall).
    exists evs. split; [|exact Hall].
    destruct (place_market_order bot _ _ _ _ _ w tr) as [[res|e] tr']; exact Hsnd. }
  destruct (String.eqb (upper (arg_type args)) "LIMIT").
  { destruct (arg_price args) as [p|]; [|exact Hnone].
    destruct (place_order_events bot (upper (arg_symbol args)) (upper (arg_side args))
                "LIMIT" (arg_quantity args) (Some p) (arg_time_in_force args)
                false false None w tr) as (evs & Hsnd & Hall).
    exists evs. split; [|exact Hall]. unfold place_limit_order.
    destruct (place_order bot _ _ _ _ _ _ _ _ _ w tr) as [[res|e] tr']; exact Hsnd. }
  destruct (String.eqb (upper (arg_type args)) "TWAP"); [|exact Hnone].
  destruct (place_twap_order_events bot (upper (arg_symbol args)) (upper (arg_side args))
              (arg_quantity args) (arg_twap_slices args) (arg_twap_duration args) w tr)
    as (evs & Hsnd & Hall).
  exists evs. split; [|exact Hall].
  destruct (place_twap_order bot _ _ _ _ _ w tr) as [[res|e] tr']; exact Hsnd.
Qed.

(** ** Dry runs without a signature, and runs without pauses *)

Lemma snoc_neq {A} (l : list A) (x : A) : (l ++ [x])%list <> l.
Proof.
  intros H. apply (f_equal (@List.length A)) in H.
  rewrite length_app in H. simpl in H. lia.
Qed.

(** X19: on a dry-run bot a request causes no event exactly when it is
    not signed.  An unsigned dry-run request returns the echo of the
    caller's own parameters and leaves the trace as it was; a signed one
    always adds the time call. *)
Theorem X19_dry_run_is_silent_iff_unsigned
    (self : BasicBot) (method path : string) (params : option pydict)
    (signed : bool) (w : world) (tr : trace) :
  dry_run self = true ->
  (snd (request self method path params signed w tr) = tr <-> signed = false)
  /\ (signed = false ->
      request self method path params signed w tr =
        (Return (dry_run_echo method (base_url self ++ path)
                   match params with Some p => p | None => [] end), tr)).
Proof.
  intros Hdry. rewrite (request_dry_run _ _ _ _ _ _ _ Hdry).
  destruct signed; cbn [snd]; split.
  - split; [intros H; now apply snoc_neq in H | discriminate].
  - discriminate.
  - split; reflexivity.
  - reflexivity.
Qed.

Lemma X19_witness :
  request dry_bot "GET" "/fapi/v1/openOrders" (Some [("symbol", VStr "BTCUSDT")]) false
    demo_world [] =
    (Return (dry_run_echo "GET" "https://testnet.binancefuture.com/fapi/v1/openOrders"
               [("symbol", VStr "BTCUSDT")]), []).
Proof.
  exact (proj2 (X19_dry_run_is_silent_iff_unsigned dry_bot "GET" "/fapi/v1/openOrders"
                  (Some [("symbol", VStr "BTCUSDT")]) false demo_world [] eq_refl)
           eq_refl).
Defined.

Lemma int_truediv_zero (slices : Z) :
  1 <= slices -> int_truediv 0 slices = Return PrimFloat.zero.
Proof.
  intros H. unfold int_truediv.
  destruct (Z.eqb_spec slices 0); [lia|].
  destruct slices as [|p|p]; try lia. reflexivity.
Qed.

(** X20: a TWAP run does not pause when there is nothing to spread: with a
    duration of 0 the interval is 0.0 and the slices follow each other
    without any sleep, and with a single slice there is no sleep whatever
    the duration. *)
Theorem X20_twap_without_pauses
    (self : BasicBot) (symbol side : string) (quantity : float)
    (slices duration : Z) (slice_qty : float) (w : world) (tr : trace) :
  1 <= slices -> 0 <= duration ->
  float_div_int quantity slices = Return slice_qty ->
  (duration = 0 ->
   sleeps (snd (place_twap_order self symbol side quantity slices duration w tr)) =
     sleeps tr)
  /\ (forall interval,
        slices = 1 -> int_truediv duration slices = Return interval ->
        sleeps (snd (place_twap_order self symbol side quantity slices duration w tr)) =
          sleeps tr).
Proof.
  intros Hs Hd Hq. split.
  - intros ->.
    rewrite (twap_run_sleeps self symbol side quantity slices 0 slice_qty PrimFloat.zero
               w tr Hs Hd Hq (int_truediv_zero slices Hs)
               (or_intror (or_introl eq_refl))).
    change (float_is_pos PrimFloat.zero) with false. now rewrite app_nil_r.
  - intros interval -> Hi.
    rewrite (twap_run_sleeps self symbol side quantity 1 duration slice_qty interval
               w tr Hs Hd Hq Hi (or_introl eq_refl)).
    cbn. destruct (float_is_pos interval); now rewrite app_nil_r.
Qed.

Lemma X20_witness :
  sleeps (snd (place_twap_order live_bot "ETHUSDT" "SELL" 0.5%float 5 0 synced_world []))
    = [].
Proof.
  exact (proj1 (X20_twap_without_pauses live_bot "ETHUSDT" "SELL" 0.5%float 5 0
                  (0.5 / 5)%float synced_world []
                  ltac:(lia) ltac:(lia) ltac:(vm_compute; reflexivity)) eq_refl).
Defined.
